(** * Abai Springs mock servers: request handlers and their responses

    A shallow embedding of the two handler classes of the repository,

    - [AbaiSpringsHandler]  (backend/python-server.py, port 3001, "server 1")
    - [StaffPortalHandler]  (simple-staff-server.py,   port 3004, "server 2")

    Both subclass [http.server.SimpleHTTPRequestHandler].  A handler method
    is a computation over the connection it writes to; a Python exception
    leaves on the connection whatever had been written before it was raised,
    so the monad keeps the state next to the outcome.

    The console is no part of a response.  It encodes UTF-8, as Python sets
    [sys.stdout] up, so the lines of the start-up code and the two lines
    that print the request path, which is text decoded from the request
    line, always go through and are left out.  The line that prints the
    email and the role of a login can raise, and is kept for that. *)

From Stdlib Require Import String Ascii List ZArith NArith Bool Lia DecimalString.
From Stdlib Require Import Strings.Byte.
From ExtLib Require Import Structures.Monad Structures.MonadExc Structures.MonadState.
Import ListNotations.
Import MonadNotation.

Local Open Scope string_scope.
Local Open Scope monad_scope.

(** ** Python exceptions *)

(** The exception classes a handler can meet, with the class hierarchy that
    decides which [except] clause catches which exception. *)
Inductive exn : Type :=
| Exception
| ValueError
| JSONDecodeError
| UnicodeDecodeError
| UnicodeEncodeError
| TypeError
| AttributeError
| RecursionError
| OSError
| FileNotFoundError
| PermissionError
| IsADirectoryError.

Definition exn_eqb (a b : exn) : bool :=
  match a, b with
  | Exception, Exception | ValueError, ValueError
  | JSONDecodeError, JSONDecodeError | UnicodeDecodeError, UnicodeDecodeError
  | UnicodeEncodeError, UnicodeEncodeError
  | TypeError, TypeError | AttributeError, AttributeError
  | RecursionError, RecursionError | OSError, OSError
  | FileNotFoundError, FileNotFoundError | PermissionError, PermissionError
  | IsADirectoryError, IsADirectoryError => true
  | _, _ => false
  end.

(** The direct base class; [Exception] is the root used here. *)
Definition base (e : exn) : option exn :=
  match e with
  | Exception => None
  | ValueError | TypeError | AttributeError | OSError => Some Exception
  | RecursionError => Some Exception
  | JSONDecodeError | UnicodeDecodeError | UnicodeEncodeError => Some ValueError
  | FileNotFoundError | PermissionError | IsADirectoryError => Some OSError
  end.

(** [issubclass e c]: the hierarchy is three levels deep. *)
Definition issubclass (e c : exn) : bool :=
  exn_eqb e c ||
  match base e with
  | None => false
  | Some p =>
      exn_eqb p c ||
      match base p with
      | None => false
      | Some g => exn_eqb g c
      end
  end.

(** ** The connection a handler writes to *)

Definition bytes := list byte.

(** [b'...'] literals and [str.encode()]: text is held as its UTF-8 bytes. *)
Definition encode (s : string) : bytes := list_byte_of_string s.

(** What [BaseHTTPRequestHandler] has been asked to send: the status of
    [send_response], the headers of [send_header] in order, whether
    [end_headers] has flushed them, and the bytes given to [wfile.write]. *)
Record conn : Type := mkConn {
  status : option Z;
  headers : list (string * string);
  headers_ended : bool;
  body : bytes
}.

Definition fresh_conn : conn := mkConn None [] false [].

(** ** The handler monad: state, and an outcome that may be an exception *)

Definition M (A : Type) : Type := conn -> conn * (exn + A).

#[global] Instance Monad_M : Monad M := {
  ret := fun _ a c => (c, inr a);
  bind := fun _ _ m k c =>
    match m c with
    | (c', inr a) => k a c'
    | (c', inl e) => (c', inl e)
    end
}.

#[global] Instance MonadState_M : MonadState conn M := {
  get := fun c => (c, inr c);
  put := fun c' _ => (c', inr tt)
}.

(** [catch m h] is [try: m  except Exception as e: h e]; the writes of [m]
    stay on the connection. *)
#[global] Instance MonadExc_M : MonadExc exn M := {
  raise := fun _ e c => (c, inl e);
  catch := fun _ m h c =>
    match m c with
    | (c', inl e) => h e c'
    | r => r
    end
}.

(** [try: m  except cls: h] catches the instances of [cls] and lets every
    other exception through. *)
Definition try_except {A} (m : M A) (cls : exn) (h : M A) : M A :=
  catch m (fun e => if issubclass e cls then h else raise e).

(** A library call that returns or raises. *)
Definition lift {A} (r : exn + A) : M A :=
  match r with
  | inl e => raise e
  | inr a => ret a
  end.

Definition run {A} (m : M A) : conn * (exn + A) := m fresh_conn.

(** Nothing is on the wire before [end_headers] has run. *)
Definition no_response (c : conn) : Prop :=
  headers_ended c = false /\ body c = [].

(** ** The handler's surroundings *)

(** The request as the handler object holds it: [self.path],
    [self.headers] and the bytes waiting on [self.rfile]. *)
Record request : Type := mkRequest {
  path : string;
  req_headers : list (string * string);
  rfile : bytes
}.

Definition set_path (p : string) (r : request) : request :=
  mkRequest p (req_headers r) (rfile r).

(** What a name of the working directory stands for: a file the process may
    read, a file it may not, or a directory. *)
Inductive entry : Type :=
| File (contents : bytes)
| Unreadable (contents : bytes)
| Directory.

(** What lies outside the handler: the working directory as a map from
    names to entries, the clock, and the two strings [send_response] puts in
    the [Server] and [Date] headers. *)
Record world : Type := mkWorld {
  files : string -> option entry;
  now_isoformat : string;
  version_string : string;
  date_time_string : string
}.

(** [open(name, 'rb')] followed by [read()]. *)
Definition open_rb (w : world) (name : string) : exn + bytes :=
  match files w name with
  | Some (File f) => inr f
  | Some (Unreadable _) => inl PermissionError
  | Some Directory => inl IsADirectoryError
  | None => inl FileNotFoundError
  end.

(** ** [BaseHTTPRequestHandler] primitives *)

Definition send_header (k v : string) : M unit :=
  c <- get ;;
  put (mkConn (status c) (headers c ++ [(k, v)])%list (headers_ended c) (body c)).

(** [send_response(code)] records the status line and adds the [Server] and
    [Date] headers. *)
Definition send_response (w : world) (code : Z) : M unit :=
  c <- get ;;
  put (mkConn (Some code) (headers c) (headers_ended c) (body c)) ;;
  send_header "Server" (version_string w) ;;
  send_header "Date" (date_time_string w).

Definition end_headers : M unit :=
  c <- get ;;
  put (mkConn (status c) (headers c) true (body c)).

Definition wfile_write (b : bytes) : M unit :=
  c <- get ;;
  put (mkConn (status c) (headers c) (headers_ended c) (body c ++ b)%list).

(** Header names compare without regard to case. *)
Definition lower_ascii (a : ascii) : ascii :=
  let n := nat_of_ascii a in
  if (65 <=? n)%nat && (n <=? 90)%nat then ascii_of_nat (n + 32) else a.

Fixpoint lower (s : string) : string :=
  match s with
  | EmptyString => EmptyString
  | String a t => String (lower_ascii a) (lower t)
  end.

(** [self.headers[name]]: the first header of that name, [None] when there
    is none (no [KeyError]). *)
Fixpoint headers_getitem (hs : list (string * string)) (name : string)
  : option string :=
  match hs with
  | [] => None
  | (k, v) :: t =>
      if String.eqb (lower k) (lower name) then Some v
      else headers_getitem t name
  end.

(** ** Text *)

(** [bytes.decode('utf-8')], strict.  The code points of a well-formed UTF-8
    sequence: shortest form only, no surrogates, nothing above U+10FFFF. *)
Definition continuation (b : byte) : option N :=
  let n := Byte.to_N b in
  if (N.land n 0xC0 =? 0x80)%N then Some (N.land n 0x3F) else None.

Fixpoint utf8_code_points (bs : bytes) : option (list N) :=
  let next (cp : N) (lo : N) (rest : option (list N)) : option (list N) :=
    if (lo <=? cp)%N && (cp <=? 0x10FFFF)%N
       && negb ((0xD800 <=? cp)%N && (cp <=? 0xDFFF)%N)
    then option_map (cons cp) rest else None in
  match bs with
  | [] => Some []
  | b0 :: t0 =>
      let n0 := Byte.to_N b0 in
      if (n0 <? 0x80)%N then option_map (cons n0) (utf8_code_points t0)
      else if (N.land n0 0xE0 =? 0xC0)%N then
        match t0 with
        | b1 :: t1 =>
            match continuation b1 with
            | Some c1 =>
                next (N.land n0 0x1F * 64 + c1)%N 0x80%N (utf8_code_points t1)
            | None => None
            end
        | _ => None
        end
      else if (N.land n0 0xF0 =? 0xE0)%N then
        match t0 with
        | b1 :: b2 :: t2 =>
            match continuation b1, continuation b2 with
            | Some c1, Some c2 =>
                next ((N.land n0 0x0F * 64 + c1) * 64 + c2)%N 0x800%N
                     (utf8_code_points t2)
            | _, _ => None
            end
        | _ => None
        end
      else if (N.land n0 0xF8 =? 0xF0)%N then
        match t0 with
        | b1 :: b2 :: b3 :: t3 =>
            match continuation b1, continuation b2, continuation b3 with
            | Some c1, Some c2, Some c3 =>
                next (((N.land n0 0x07 * 64 + c1) * 64 + c2) * 64 + c3)%N
                     0x10000%N (utf8_code_points t3)
            | _, _, _ => None
            end
        | _ => None
        end
      else None
  end.

Definition decode_utf8 (b : bytes) : exn + string :=
  match utf8_code_points b with
  | Some _ => inr (string_of_list_byte b)
  | None => inl UnicodeDecodeError
  end.

(** ['needle' in haystack] *)
Fixpoint contains (haystack needle : string) : bool :=
  String.prefix needle haystack ||
  match haystack with
  | EmptyString => false
  | String _ t => contains t needle
  end.

(** [x in [a, b, ...]] for strings. *)
Definition str_in (x : string) (l : list string) : bool :=
  existsb (String.eqb x) l.

(** ** JSON values and [json.dumps] *)

(** The Python objects [json.loads] returns and [json.dumps] prints.  A dict
    keeps its keys in insertion order; a float stands as its [repr]. *)
#[warnings="-register-all"]
Inductive json : Type :=
| JNone
| JBool (b : bool)
| JInt (n : Z)
| JFloat (repr : string)
| JStr (s : string)
| JList (l : list json)
| JDict (d : list (string * json)).

Fixpoint dict_lookup (d : list (string * json)) (k : string) : option json :=
  match d with
  | [] => None
  | (k', v) :: t => if String.eqb k' k then Some v else dict_lookup t k
  end.

(** [data.get(k, default)]: only a dict has the method. *)
Definition get_method (data : json) (k : string) (default : json) : exn + json :=
  match data with
  | JDict d =>
      inr match dict_lookup d k with
          | Some v => v
          | None => default
          end
  | _ => inl AttributeError
  end.

(** [v == 'literal']: only a [str] equals a [str]. *)
Definition eq_str (v : json) (s : string) : bool :=
  match v with
  | JStr t => String.eqb t s
  | _ => false
  end.

Definition dquote : string := String (ascii_of_nat 34) EmptyString.

Definition hex_digit (n : N) : ascii :=
  ascii_of_N (if (n <? 10)%N then 48 + n else 87 + n).

Definition hex4 (n : N) : string :=
  String (hex_digit (N.land (N.shiftr n 12) 15))
    (String (hex_digit (N.land (N.shiftr n 8) 15))
       (String (hex_digit (N.land (N.shiftr n 4) 15))
          (String (hex_digit (N.land n 15)) EmptyString))).

(** One code point under [ensure_ascii=True]: the short escapes, printable
    ASCII as it is, [\uXXXX] for the rest, a surrogate pair above U+FFFF. *)
Definition escape_code_point (n : N) : string :=
  if (n =? 0x5C)%N then "\\"
  else if (n =? 0x22)%N then "\" ++ dquote
  else if (n =? 0x08)%N then "\b"
  else if (n =? 0x0C)%N then "\f"
  else if (n =? 0x0A)%N then "\n"
  else if (n =? 0x0D)%N then "\r"
  else if (n =? 0x09)%N then "\t"
  else if (0x20 <=? n)%N && (n <=? 0x7E)%N then String (ascii_of_N n) EmptyString
  else if (n <? 0x10000)%N then "\u" ++ hex4 n
  else
    let m := (n - 0x10000)%N in
    "\u" ++ hex4 (N.lor 0xD800 (N.land (N.shiftr m 10) 0x3FF)) ++
    "\u" ++ hex4 (N.lor 0xDC00 (N.land m 0x3FF)).

(** [py_encode_basestring_ascii].  Text is UTF-8 here; bytes that are not
    text, which no [str] of the program holds, are taken one by one. *)
Definition encode_basestring_ascii (s : string) : string :=
  let bs := list_byte_of_string s in
  let cps := match utf8_code_points bs with
             | Some cps => cps
             | None => map Byte.to_N bs
             end in
  dquote ++ String.concat "" (map escape_code_point cps) ++ dquote.

(** [json.dumps(v)] with the default separators. *)
Fixpoint json_dumps (v : json) : string :=
  match v with
  | JNone => "null"
  | JBool true => "true"
  | JBool false => "false"
  | JInt n => NilZero.string_of_int (Z.to_int n)
  | JFloat r => r
  | JStr s => encode_basestring_ascii s
  | JList l => "[" ++ String.concat ", " (map json_dumps l) ++ "]"
  | JDict d =>
      "{" ++ String.concat ", "
               (map (fun kv => match kv with
                               | (k, x) => encode_basestring_ascii k ++ ": "
                                           ++ json_dumps x
                               end) d)
          ++ "}"
  end.

(** ** The console *)

(** A [str] is text unless it holds a lone surrogate, which stands here as
    its three bytes and which strict UTF-8 refuses.  Every other value is
    printed by its [repr], which escapes what is not printable. *)
Definition is_text (v : json) : bool :=
  match v with
  | JStr s =>
      match utf8_code_points (list_byte_of_string s) with
      | Some _ => true
      | None => false
      end
  | _ => true
  end.

(** [print(f"... {v1} ... {v2}")] with the values [fields] in the line:
    [sys.stdout] encodes the line and raises on what is not text.  The line
    itself is no part of a response; the exception is. *)
Definition print (fields : list json) : exn + unit :=
  if forallb is_text fields then inr tt else inl UnicodeEncodeError.

(** ** The library under the handlers *)

(** The standard-library calls whose results the handlers branch on.  Each
    returns or raises:
    - [urlparse_path url] is [urlparse(url).path];
    - [int_of_str s] is [int(s)] on a [str];
    - [json_loads s] is [json.loads(s)];
    - [rfile_read self n] is [self.rfile.read(n)] on the buffered stream of
      the connection;
    - [SimpleHTTPRequestHandler_do_GET] is the inherited static-file
      [do_GET], which reads [self.path], [self.headers] and the files. *)
Class Library : Type := {
  urlparse_path : string -> exn + string;
  int_of_str : string -> exn + Z;
  json_loads : string -> exn + json;
  rfile_read : request -> Z -> exn + bytes;
  SimpleHTTPRequestHandler_do_GET : world -> request -> M unit
}.

(** [int(x)] where [x] is a header value or [None]. *)
Definition int {L : Library} (x : option string) : exn + Z :=
  match x with
  | None => inl TypeError
  | Some s => int_of_str s
  end.

(** ** Server 1: [AbaiSpringsHandler] *)

Module AbaiSpringsHandler.

Definition PORT : Z := 3001.

Definition products : json :=
  JList
    [ JDict [("_id", JStr "1"); ("name", JStr "Abai Water 500ml");
             ("brand", JStr "Abai"); ("price", JInt 50); ("stock", JInt 150)];
      JDict [("_id", JStr "2"); ("name", JStr "Abai Water 1L");
             ("brand", JStr "Abai"); ("price", JInt 80); ("stock", JInt 200)];
      JDict [("_id", JStr "3"); ("name", JStr "Sprinkle Water 500ml");
             ("brand", JStr "Sprinkle"); ("price", JInt 45);
             ("stock", JInt 120)] ].

Definition outlets : json :=
  JList
    [ JDict [("_id", JStr "1"); ("name", JStr "Nairobi Central");
             ("location", JStr "Nairobi CBD");
             ("phone", JStr "+254 700 123 456"); ("status", JStr "Active")];
      JDict [("_id", JStr "2"); ("name", JStr "Mombasa Branch");
             ("location", JStr "Mombasa City");
             ("phone", JStr "+254 700 789 012"); ("status", JStr "Active")] ].

Definition orders : json :=
  JList
    [ JDict [("_id", JStr "1"); ("orderNumber", JStr "ORD001");
             ("customer", JStr "John Doe"); ("total", JInt 100);
             ("status", JStr "Delivered")];
      JDict [("_id", JStr "2"); ("orderNumber", JStr "ORD002");
             ("customer", JStr "Jane Smith"); ("total", JInt 45);
             ("status", JStr "Processing")] ].

Definition users : json :=
  JList
    [ JDict [("_id", JStr "1"); ("name", JStr "John Doe");
             ("email", JStr "john@example.com");
             ("phone", JStr "+254 700 123 456")];
      JDict [("_id", JStr "2"); ("name", JStr "Jane Smith");
             ("email", JStr "jane@example.com");
             ("phone", JStr "+254 700 789 012")] ].

Definition statistics : json :=
  JDict [("activeAlerts", JInt 5); ("alertsSentToday", JInt 12);
         ("monitoringActive", JBool true); ("totalPredictions", JInt 8)].

Definition health (w : world) : json :=
  JDict [("status", JStr "OK"); ("message", JStr "Python server is running");
         ("timestamp", JStr (now_isoformat w))].

Section Handler.
Context {L : Library}.

Definition do_GET (w : world) (self : request) : M unit :=
  path <- lift (urlparse_path (path self)) ;;
  if path =? "/api/health" then
    send_response w 200 ;;
    send_header "Content-type" "application/json" ;;
    send_header "Access-Control-Allow-Origin" "*" ;;
    end_headers ;;
    wfile_write (encode (json_dumps (health w)))
  else if path =? "/api/products" then
    send_response w 200 ;;
    send_header "Content-type" "application/json" ;;
    send_header "Access-Control-Allow-Origin" "*" ;;
    end_headers ;;
    wfile_write (encode (json_dumps products))
  else if path =? "/api/outlets" then
    send_response w 200 ;;
    send_header "Content-type" "application/json" ;;
    send_header "Access-Control-Allow-Origin" "*" ;;
    end_headers ;;
    wfile_write (encode (json_dumps outlets))
  else if path =? "/api/orders" then
    send_response w 200 ;;
    send_header "Content-type" "application/json" ;;
    send_header "Access-Control-Allow-Origin" "*" ;;
    end_headers ;;
    wfile_write (encode (json_dumps orders))
  else if path =? "/api/auth/users" then
    send_response w 200 ;;
    send_header "Content-type" "application/json" ;;
    send_header "Access-Control-Allow-Origin" "*" ;;
    end_headers ;;
    wfile_write (encode (json_dumps users))
  else if path =? "/api/stock-alerts/statistics" then
    send_response w 200 ;;
    send_header "Content-type" "application/json" ;;
    send_header "Access-Control-Allow-Origin" "*" ;;
    end_headers ;;
    wfile_write (encode (json_dumps statistics))
  else if path =? "/api/stock-alerts" then
    send_response w 200 ;;
    send_header "Content-type" "application/json" ;;
    send_header "Access-Control-Allow-Origin" "*" ;;
    end_headers ;;
    wfile_write (encode (json_dumps (JList [])))
  else if path =? "/admin-fixed" then
    SimpleHTTPRequestHandler_do_GET w (set_path "/admin-dashboard-fixed.html" self)
  else
    SimpleHTTPRequestHandler_do_GET w self.

Definition do_POST (w : world) (self : request) : M unit :=
  path <- lift (urlparse_path (path self)) ;;
  if str_in path ["/api/stock-alerts/monitoring/start";
                  "/api/stock-alerts/monitoring/stop"] then
    send_response w 200 ;;
    send_header "Content-type" "application/json" ;;
    send_header "Access-Control-Allow-Origin" "*" ;;
    end_headers ;;
    let action := if contains path "start" then "started" else "stopped" in
    let response :=
      JDict [("success", JBool true); ("message", JStr ("Monitoring " ++ action))] in
    wfile_write (encode (json_dumps response))
  else
    send_response w 404 ;;
    end_headers.

Definition do_OPTIONS (w : world) (self : request) : M unit :=
  send_response w 200 ;;
  send_header "Access-Control-Allow-Origin" "*" ;;
  send_header "Access-Control-Allow-Methods" "GET, POST, OPTIONS" ;;
  send_header "Access-Control-Allow-Headers" "Content-Type" ;;
  end_headers.

End Handler.
End AbaiSpringsHandler.

(** ** Server 2: [StaffPortalHandler] *)

Module StaffPortalHandler.

Definition PORT : Z := 3004.

Definition health : json :=
  JDict [("status", JStr "OK");
         ("message", JStr "Staff Portal Server is running");
         ("endpoints",
          JDict [("staffLogin", JStr "/staff-login");
                 ("ownerDashboard", JStr "/owner-dashboard");
                 ("apiHealth", JStr "/api/health")])].

Definition login_ok : json :=
  JDict [("success", JBool true);
         ("message", JStr "Staff login successful");
         ("token", JStr "mock-jwt-token");
         ("user",
          JDict [("id", JStr "1"); ("name", JStr "Business Owner");
                 ("email", JStr "admin@abaisprings.com");
                 ("role", JStr "owner")])].

Definition login_failed : json :=
  JDict [("success", JBool false); ("message", JStr "Invalid credentials")].

Definition invalid_json : json :=
  JDict [("error", JStr "Invalid JSON")].

Section Handler.
Context {L : Library}.

Definition do_GET (w : world) (self : request) : M unit :=
  path <- lift (urlparse_path (path self)) ;;
  if path =? "/staff-login" then
    send_response w 200 ;;
    send_header "Content-type" "text/html" ;;
    end_headers ;;
    try_except
      (f <- lift (open_rb w "staff-login.html") ;;
       wfile_write f)
      FileNotFoundError
      (wfile_write (encode "<h1>Staff Login Page Not Found</h1>"))
  else if path =? "/owner-dashboard" then
    send_response w 200 ;;
    send_header "Content-type" "text/html" ;;
    end_headers ;;
    try_except
      (f <- lift (open_rb w "owner-dashboard.html") ;;
       wfile_write f)
      FileNotFoundError
      (wfile_write (encode "<h1>Owner Dashboard Not Found</h1>"))
  else if path =? "/api/health" then
    send_response w 200 ;;
    send_header "Content-type" "application/json" ;;
    end_headers ;;
    wfile_write (encode (json_dumps health))
  else
    SimpleHTTPRequestHandler_do_GET w self.

Definition do_POST (w : world) (self : request) : M unit :=
  path <- lift (urlparse_path (path self)) ;;
  if path =? "/api/auth/staff-login" then
    content_length <- lift (int (headers_getitem (req_headers self) "Content-Length")) ;;
    post_data <- lift (rfile_read self content_length) ;;
    try_except
      (text <- lift (decode_utf8 post_data) ;;
       data <- lift (json_loads text) ;;
       email <- lift (get_method data "email" (JStr "")) ;;
       password <- lift (get_method data "password" (JStr "")) ;;
       role <- lift (get_method data "role" (JStr "")) ;;
       lift (print [email; role]) ;;
       let '(response, status_code) :=
         if eq_str email "admin@abaisprings.com"
            && eq_str password "password123"
            && eq_str role "owner"
         then (login_ok, 200%Z)
         else (login_failed, 401%Z) in
       send_response w status_code ;;
       send_header "Content-type" "application/json" ;;
       send_header "Access-Control-Allow-Origin" "*" ;;
       send_header "Access-Control-Allow-Methods" "POST, OPTIONS" ;;
       send_header "Access-Control-Allow-Headers" "Content-Type" ;;
       end_headers ;;
       wfile_write (encode (json_dumps response)))
      JSONDecodeError
      (send_response w 400 ;;
       send_header "Content-type" "application/json" ;;
       end_headers ;;
       wfile_write (encode (json_dumps invalid_json)))
  else
    send_response w 404 ;;
    end_headers ;;
    wfile_write (encode "Not Found").

Definition do_OPTIONS (w : world) (self : request) : M unit :=
  send_response w 200 ;;
  send_header "Access-Control-Allow-Origin" "*" ;;
  send_header "Access-Control-Allow-Methods" "GET, POST, OPTIONS" ;;
  send_header "Access-Control-Allow-Headers" "Content-Type" ;;
  end_headers.

End Handler.
End StaffPortalHandler.

(** ** The accept loop *)

Inductive method : Type := GET | POST | OPTIONS.

Inductive server : Type := Server1 | Server2.

(** One request: [TCPServer] builds a new handler object on a new connection
    and calls the method named by the request line. *)
Definition handle {L : Library} (s : server) (w : world) (m : method)
  (r : request) : conn * (exn + unit) :=
  run match s, m with
      | Server1, GET => AbaiSpringsHandler.do_GET w r
      | Server1, POST => AbaiSpringsHandler.do_POST w r
      | Server1, OPTIONS => AbaiSpringsHandler.do_OPTIONS w r
      | Server2, GET => StaffPortalHandler.do_GET w r
      | Server2, POST => StaffPortalHandler.do_POST w r
      | Server2, OPTIONS => StaffPortalHandler.do_OPTIONS w r
      end.

(** [serve_forever]: the requests are handled one after the other, each in
    the world of its own moment; an exception ends that request only.  The
    handler classes set no attribute that outlives a request and the modules
    have no global a handler writes, so nothing passes from one request to
    the next. *)
Definition serve_forever {L : Library} (s : server)
  (reqs : list (world * method * request)) : list (conn * (exn + unit)) :=
  map (fun '(w, m, r) => handle s w m r) reqs.

(** ** A reference library

    Stand-ins for the four library calls, enough to run the handlers on
    concrete requests.  The statements below hold for every [Library]; this
    one only supplies the runs. *)

Module Reference.

(** [s.split(sep, 1)[0]] *)
Fixpoint before (sep : ascii) (s : string) : string :=
  match s with
  | EmptyString => EmptyString
  | String a t => if Ascii.eqb a sep then EmptyString else String a (before sep t)
  end.

(** [urlparse(url).path] for an origin-form target (one leading slash, so no
    scheme and no authority) without [;] parameters: the fragment and the
    query are cut off. *)
Definition urlparse_path (url : string) : exn + string :=
  inr (before "?" (before "#" url)).

Definition digit (a : ascii) : option Z :=
  let n := nat_of_ascii a in
  if (48 <=? n)%nat && (n <=? 57)%nat then Some (Z.of_nat (n - 48)) else None.

Fixpoint digits (s : string) (acc : Z) : option Z :=
  match s with
  | EmptyString => Some acc
  | String a t =>
      match digit a with
      | Some d => digits t (10 * acc + d)%Z
      | None => None
      end
  end.

(** [int(s)] for an optional sign and ASCII decimal digits. *)
Definition int_of_str (s : string) : exn + Z :=
  let parse t k :=
    match t with
    | EmptyString => inl ValueError
    | _ => match digits t 0 with
           | Some n => inr (k n)
           | None => inl ValueError
           end
    end in
  match s with
  | String "-" t => parse t Z.opp
  | String "+" t => parse t (fun n => n)
  | _ => parse s (fun n => n)
  end.

(** [d[k] = v] on a dict: a key keeps the place of its first insertion. *)
Fixpoint dict_set (d : list (string * json)) (k : string) (v : json)
  : list (string * json) :=
  match d with
  | [] => [(k, v)]
  | (k', v') :: t =>
      if String.eqb k' k then (k, v) :: t else (k', v') :: dict_set t k v
  end.

Fixpoint skip_ws (s : string) : string :=
  match s with
  | String a t =>
      if Ascii.eqb a " " || Ascii.eqb a "009" || Ascii.eqb a "010"
         || Ascii.eqb a "013"
      then skip_ws t else s
  | EmptyString => s
  end.

(** The characters of a string literal after its opening quote; of the
    escapes, the two-character ones. *)
Fixpoint scan_string (s : string) : option (string * string) :=
  match s with
  | EmptyString => None
  | String a t =>
      if Ascii.eqb a (ascii_of_nat 34) then Some (EmptyString, t)
      else if Ascii.eqb a "\" then
        match t with
        | String e t' =>
            let unescaped :=
              if Ascii.eqb e "n" then Some "010"%char
              else if Ascii.eqb e "t" then Some "009"%char
              else if Ascii.eqb e "r" then Some "013"%char
              else if Ascii.eqb e "b" then Some "008"%char
              else if Ascii.eqb e "f" then Some "012"%char
              else if Ascii.eqb e "/" || Ascii.eqb e "\"
                      || Ascii.eqb e (ascii_of_nat 34) then Some e
              else None in
            match unescaped, scan_string t' with
            | Some c, Some (str, rest) => Some (String c str, rest)
            | _, _ => None
            end
        | EmptyString => None
        end
      else if (nat_of_ascii a <? 32)%nat then None
      else
        match scan_string t with
        | Some (str, rest) => Some (String a str, rest)
        | None => None
        end
  end.

(** The digits at the front of [s], and what follows them. *)
Fixpoint span_digits (s : string) : string * string :=
  match s with
  | String a t =>
      match digit a with
      | Some _ => let '(ds, rest) := span_digits t in (String a ds, rest)
      | None => (EmptyString, s)
      end
  | EmptyString => (EmptyString, s)
  end.

Definition scan_int (s : string) : option (json * string) :=
  let '(sign, s') := match s with
                     | String "-" t => (Z.opp, t)
                     | _ => (fun n => n, s)
                     end in
  match span_digits s' with
  | (EmptyString, _) => None
  | (String "0" (String _ _), _) => None
  | (ds, rest) =>
      match digits ds 0, rest with
      | _, String "." _ | _, String "e" _ | _, String "E" _ => None
      | Some n, _ => Some (JInt (sign n), rest)
      | None, _ => None
      end
  end.

Definition literal (word : string) (v : json) (s : string)
  : option (json * string) :=
  if String.prefix word s
  then Some (v, String.substring (String.length word)
                                 (String.length s - String.length word) s)
  else None.

(** One JSON value at the front of [s]: objects, arrays, strings, integers
    and the three literals.  [values] reads the rest of an array after an
    element, [members] the rest of an object after a member. *)
Fixpoint value (fuel : nat) (s : string) : option (json * string) :=
  match fuel with
  | O => None
  | S fuel =>
      match skip_ws s with
      | String "{" t =>
          match skip_ws t with
          | String "}" rest => Some (JDict [], rest)
          | t' => members fuel t' []
          end
      | String "[" t =>
          match skip_ws t with
          | String "]" rest => Some (JList [], rest)
          | t' => values fuel t' []
          end
      | String "t" _ as s' => literal "true" (JBool true) s'
      | String "f" _ as s' => literal "false" (JBool false) s'
      | String "n" _ as s' => literal "null" JNone s'
      | String a t as s' =>
          if Ascii.eqb a (ascii_of_nat 34) then
            match scan_string t with
            | Some (str, rest) => Some (JStr str, rest)
            | None => None
            end
          else scan_int s'
      | EmptyString => None
      end
  end
with values (fuel : nat) (s : string) (acc : list json)
  : option (json * string) :=
  match fuel with
  | O => None
  | S fuel =>
      match value fuel s with
      | Some (v, rest) =>
          match skip_ws rest with
          | String "," t => values fuel t (acc ++ [v])%list
          | String "]" t => Some (JList (acc ++ [v])%list, t)
          | _ => None
          end
      | None => None
      end
  end
with members (fuel : nat) (s : string) (acc : list (string * json))
  : option (json * string) :=
  match fuel with
  | O => None
  | S fuel =>
      match skip_ws s with
      | String q t =>
          if Ascii.eqb q (ascii_of_nat 34) then
            match scan_string t with
            | Some (k, rest) =>
                match skip_ws rest with
                | String ":" rest' =>
                    match value fuel rest' with
                    | Some (v, rest'') =>
                        match skip_ws rest'' with
                        | String "," t' => members fuel t' (dict_set acc k v)
                        | String "}" t' => Some (JDict (dict_set acc k v), t')
                        | _ => None
                        end
                    | None => None
                    end
                | _ => None
                end
            | None => None
            end
          else None
      | EmptyString => None
      end
  end.

(** [json.loads(s)]: one value and nothing after it. *)
Definition json_loads (s : string) : exn + json :=
  match value (S (String.length s)) s with
  | Some (v, rest) =>
      match skip_ws rest with
      | EmptyString => inr v
      | _ => inl JSONDecodeError
      end
  | None => inl JSONDecodeError
  end.

(** [self.rfile.read(n)]: at most [n] bytes of what the client sent, all of
    it for [-1], [ValueError] below that. *)
Definition rfile_read (self : request) (n : Z) : exn + bytes :=
  if (n <? -1)%Z then inl ValueError
  else if (n =? -1)%Z then inr (rfile self)
  else inr (firstn (Z.to_nat n) (rfile self)).

(** Static files: the file named by the path below the working directory, or
    the 404 page of [send_error]. *)
Definition SimpleHTTPRequestHandler_do_GET (w : world) (self : request) : M unit :=
  match urlparse_path (path self) with
  | inr (String "/" name) =>
      match open_rb w name with
      | inr f =>
          send_response w 200 ;;
          send_header "Content-type" "application/octet-stream" ;;
          send_header "Content-Length"
            (NilZero.string_of_uint (Nat.to_uint (List.length f))) ;;
          end_headers ;;
          wfile_write f
      | inl _ =>
          send_response w 404 ;;
          send_header "Connection" "close" ;;
          end_headers ;;
          wfile_write (encode "File not found")
      end
  | _ =>
      send_response w 404 ;;
      send_header "Connection" "close" ;;
      end_headers ;;
      wfile_write (encode "File not found")
  end.

Definition lib : Library :=
  Build_Library urlparse_path int_of_str json_loads rfile_read
    SimpleHTTPRequestHandler_do_GET.

(** A working directory that holds the files of [files] and nothing else. *)
Fixpoint lookup_file (dir : list (string * bytes)) (name : string)
  : option bytes :=
  match dir with
  | [] => None
  | (n, b) :: t => if String.eqb n name then Some b else lookup_file t name
  end.

Definition world_of (dir : list (string * bytes)) : world :=
  mkWorld (fun name => option_map File (lookup_file dir name))
          "2025-01-01T12:00:00.000000"
          "SimpleHTTP/0.6 Python/3.11.4" "Wed, 01 Jan 2025 12:00:00 GMT".

(** A working directory with the login page and the admin dashboard. *)
Definition site : world :=
  world_of [("staff-login.html", encode "<html>login</html>");
            ("admin-dashboard-fixed.html", encode "<html>admin</html>")].

(** A stricter library: [urlparse] refuses an authority that opens a bracket
    it does not close, as it does for an IPv6 literal, and [json.loads] runs
    out of stack when the text opens more than [limit] arrays at its
    front. *)
Definition urlparse_path_strict (url : string) : exn + string :=
  if String.prefix "//[" url && negb (contains url "]")
  then inl ValueError
  else urlparse_path url.

Fixpoint leading_brackets (s : string) : nat :=
  match s with
  | String "[" t => S (leading_brackets t)
  | _ => O
  end.

Definition json_loads_bounded (limit : nat) (s : string) : exn + json :=
  if (limit <? leading_brackets s)%nat then inl RecursionError
  else json_loads s.

Definition lib_strict (limit : nat) : Library :=
  Build_Library urlparse_path_strict int_of_str (json_loads_bounded limit)
    rfile_read SimpleHTTPRequestHandler_do_GET.

(** A working directory whose login page is there but may not be read. *)
Definition locked : world :=
  mkWorld (fun name =>
             if String.eqb name "staff-login.html"
             then Some (Unreadable (encode "<html>login</html>"))
             else None)
          "2025-01-01T12:00:00.000000"
          "SimpleHTTP/0.6 Python/3.11.4" "Wed, 01 Jan 2025 12:00:00 GMT".

(** Requests as a client sends them. *)
Definition get_request (target : string) : request :=
  mkRequest target [("Host", "localhost")] [].

Definition post_request (target : string) (b : bytes) : request :=
  mkRequest target
    [("Host", "localhost");
     ("Content-Length", NilZero.string_of_uint (Nat.to_uint (List.length b)))]
    b.

End Reference.

(** * Properties of the handlers *)

(** ** Vocabulary of the statements *)

Definition quoted (s : string) : string := dquote ++ s ++ dquote.

(** The two headers every [send_response] puts first. *)
Definition base_headers (w : world) : list (string * string) :=
  [("Server", version_string w); ("Date", date_time_string w)].

(** A complete response: status [code], the headers [hs] after the two of
    [send_response], the headers flushed, the body [b], and a handler that
    returned. *)
Definition reply (w : world) (code : Z) (hs : list (string * string))
  (b : bytes) : conn * (exn + unit) :=
  (mkConn (Some code) (base_headers w ++ hs)%list true b, inr tt).

(** The handler raised [e] before anything was sent. *)
Definition crash (e : exn) : conn * (exn + unit) := (fresh_conn, inl e).

Definition cors_json : list (string * string) :=
  [("Content-type", "application/json"); ("Access-Control-Allow-Origin", "*")].

Definition keys (o : json) : option (list string) :=
  match o with
  | JDict d => Some (map fst d)
  | _ => None
  end.

Definition has_field (o : json) (k : string) : bool :=
  match o with
  | JDict d => match dict_lookup d k with Some _ => true | None => false end
  | _ => false
  end.

(** The body read back as JSON by the reference parser. *)
Definition body_json (out : conn * (exn + unit)) : exn + json :=
  match decode_utf8 (body (fst out)) with
  | inr text => Reference.json_loads text
  | inl e => inl e
  end.

(** The two pages server 2 reads itself: path, file, fallback text. *)
Definition special_pages : list (string * (string * string)) :=
  [("/staff-login",
    ("staff-login.html", "<h1>Staff Login Page Not Found</h1>"));
   ("/owner-dashboard",
    ("owner-dashboard.html", "<h1>Owner Dashboard Not Found</h1>"))].

(** What a GET of a special page sends.  The status and the header are out
    before the file is opened, whatever [open] does next: the file's bytes
    when it opens, the fallback text when there is no such file; any other
    error of [open] passes the [except FileNotFoundError] clause and leaves
    the body empty. *)
Definition page_served (w : world) (file fallback : string)
  (out : conn * (exn + unit)) : Prop :=
  status (fst out) = Some 200%Z
  /\ headers (fst out)
     = (base_headers w ++ [("Content-type", "text/html")])%list
  /\ headers_ended (fst out) = true
  /\ match open_rb w file with
     | inr f => body (fst out) = f /\ snd out = inr tt
     | inl e =>
         if issubclass e FileNotFoundError
         then body (fst out) = encode fallback /\ snd out = inr tt
         else body (fst out) = [] /\ snd out = inl e
     end.

(** The bytes of the file of that name, when the directory has one. *)
Definition file_bytes (w : world) (name : string) : option bytes :=
  match files w name with
  | Some (File f) | Some (Unreadable f) => Some f
  | Some Directory | None => None
  end.

(** The two monitoring toggles of server 1 and the word each answers with. *)
Definition monitoring_toggles : list (string * string) :=
  [("/api/stock-alerts/monitoring/start", "started");
   ("/api/stock-alerts/monitoring/stop", "stopped")].

Definition monitoring_text (word : string) : string :=
  "{" ++ quoted "success" ++ ": true, " ++ quoted "message" ++ ": "
      ++ quoted ("Monitoring " ++ word) ++ "}".

(** The routes of server 1 that answer with JSON. *)
Definition json_routes : list (method * string) :=
  [(GET, "/api/health"); (GET, "/api/products"); (GET, "/api/outlets");
   (GET, "/api/orders"); (GET, "/api/auth/users");
   (GET, "/api/stock-alerts/statistics"); (GET, "/api/stock-alerts");
   (POST, "/api/stock-alerts/monitoring/start");
   (POST, "/api/stock-alerts/monitoring/stop")].

(** The login replies of server 2, as text. *)
Definition login_headers : list (string * string) :=
  [("Content-type", "application/json");
   ("Access-Control-Allow-Origin", "*");
   ("Access-Control-Allow-Methods", "POST, OPTIONS");
   ("Access-Control-Allow-Headers", "Content-Type")].

Definition login_ok_text : string :=
  "{" ++ quoted "success" ++ ": true, "
      ++ quoted "message" ++ ": " ++ quoted "Staff login successful" ++ ", "
      ++ quoted "token" ++ ": " ++ quoted "mock-jwt-token" ++ ", "
      ++ quoted "user" ++ ": {"
      ++ quoted "id" ++ ": " ++ quoted "1" ++ ", "
      ++ quoted "name" ++ ": " ++ quoted "Business Owner" ++ ", "
      ++ quoted "email" ++ ": " ++ quoted "admin@abaisprings.com" ++ ", "
      ++ quoted "role" ++ ": " ++ quoted "owner" ++ "}}".

Definition login_failed_text : string :=
  "{" ++ quoted "success" ++ ": false, "
      ++ quoted "message" ++ ": " ++ quoted "Invalid credentials" ++ "}".

Definition invalid_json_text : string :=
  "{" ++ quoted "error" ++ ": " ++ quoted "Invalid JSON" ++ "}".

(** A field of a parsed body, [''] when it is missing. *)
Definition field (d : list (string * json)) (k : string) : json :=
  match dict_lookup d k with
  | Some v => v
  | None => JStr ""
  end.

Definition credentials_match (d : list (string * json)) : bool :=
  eq_str (field d "email") "admin@abaisprings.com"
  && eq_str (field d "password") "password123"
  && eq_str (field d "role") "owner".

(** A login body with the three fields given. *)
Definition login_body (email password role : string) : bytes :=
  encode ("{" ++ quoted "email" ++ ": " ++ quoted email ++ ", "
              ++ quoted "password" ++ ": " ++ quoted password ++ ", "
              ++ quoted "role" ++ ": " ++ quoted role ++ "}").

(** The paths each [do_GET] answers itself; every other path goes to the
    static-file handler. *)
Definition server1_get_routes : list string :=
  ["/api/health"; "/api/products"; "/api/outlets"; "/api/orders";
   "/api/auth/users"; "/api/stock-alerts/statistics"; "/api/stock-alerts";
   "/admin-fixed"].

Definition server2_get_routes : list string :=
  ["/staff-login"; "/owner-dashboard"; "/api/health"].

(** The list routes of server 1 besides the products: path, number of
    records, fields of a record. *)
Definition list_routes : list (string * (nat * list string)) :=
  [("/api/outlets", (2, ["_id"; "name"; "location"; "phone"; "status"]));
   ("/api/orders", (2, ["_id"; "orderNumber"; "customer"; "total"; "status"]));
   ("/api/auth/users", (2, ["_id"; "name"; "email"; "phone"]));
   ("/api/stock-alerts", (0, []))].

(** Text that [json.dumps] prints as it is: printable ASCII without the
    quote and the backslash. *)
Definition plain_ascii (a : ascii) : bool :=
  let n := N_of_ascii a in
  (0x20 <=? n)%N && (n <=? 0x7E)%N && negb (n =? 0x22)%N && negb (n =? 0x5C)%N.

Fixpoint plain (s : string) : bool :=
  match s with
  | EmptyString => true
  | String a t => plain_ascii a && plain t
  end.

Definition health_text (timestamp : string) : string :=
  "{" ++ quoted "status" ++ ": " ++ quoted "OK" ++ ", "
      ++ quoted "message" ++ ": " ++ quoted "Python server is running" ++ ", "
      ++ quoted "timestamp" ++ ": " ++ quoted timestamp ++ "}".

Definition statistics_text : string :=
  "{" ++ quoted "activeAlerts" ++ ": 5, "
      ++ quoted "alertsSentToday" ++ ": 12, "
      ++ quoted "monitoringActive" ++ ": true, "
      ++ quoted "totalPredictions" ++ ": 8}".

Definition staff_health_text : string :=
  "{" ++ quoted "status" ++ ": " ++ quoted "OK" ++ ", "
      ++ quoted "message" ++ ": " ++ quoted "Staff Portal Server is running"
      ++ ", " ++ quoted "endpoints" ++ ": {"
      ++ quoted "staffLogin" ++ ": " ++ quoted "/staff-login" ++ ", "
      ++ quoted "ownerDashboard" ++ ": " ++ quoted "/owner-dashboard" ++ ", "
      ++ quoted "apiHealth" ++ ": " ++ quoted "/api/health" ++ "}}".

(** Either an exception before anything was sent, or a complete response
    with one of the statuses [codes]. *)
Definition complete_or_nothing (w : world) (codes : list Z)
  (out : conn * (exn + unit)) : Prop :=
  (exists e, out = crash e)
  \/ (exists code hs b, out = reply w code hs b /\ In code codes).

(** The three fields of the owner, as strings, in a parsed body. *)
Definition owner_credentials (d : list (string * json)) : Prop :=
  dict_lookup d "email" = Some (JStr "admin@abaisprings.com")
  /\ dict_lookup d "password" = Some (JStr "password123")
  /\ dict_lookup d "role" = Some (JStr "owner").

(** ** Stepping through a handler *)

Ltac unfold_handlers :=
  unfold serve_forever, handle, run, reply, crash,
    AbaiSpringsHandler.do_GET, AbaiSpringsHandler.do_POST,
    AbaiSpringsHandler.do_OPTIONS, StaffPortalHandler.do_GET,
    StaffPortalHandler.do_POST, StaffPortalHandler.do_OPTIONS.

Ltac step_with H := rewrite H; cbn.

(** [except json.JSONDecodeError] catches that class and nothing else. *)
Lemma except_JSONDecodeError_only (e : exn) :
  issubclass e JSONDecodeError = true <-> e = JSONDecodeError.
Proof. split; [destruct e; (reflexivity || discriminate) | intros ->; reflexivity]. Qed.

Lemma except_FileNotFoundError_only (e : exn) :
  issubclass e FileNotFoundError = true <-> e = FileNotFoundError.
Proof. split; [destruct e; (reflexivity || discriminate) | intros ->; reflexivity]. Qed.

(** What the console takes: text and the repr of other values; not a
    string that holds a lone surrogate, here U+D800. *)
Example print_cases :
  print [JStr "admin@abaisprings.com"; JStr "owner"] = inr tt
  /\ print [JInt 5; JList [JStr (string_of_list_byte [xed; xa0; x80])]] = inr tt
  /\ print [JStr (string_of_list_byte [xc3; xa9]); JStr ""] = inr tt
  /\ print [JStr (string_of_list_byte [xed; xa0; x80]); JStr "owner"]
     = inl UnicodeEncodeError
  /\ print [JStr "a"; JStr (string_of_list_byte [xed; xa0; x80])]
     = inl UnicodeEncodeError.
Proof. repeat split; reflexivity. Qed.

(** Well-formed and ill-formed UTF-8: ASCII, two, three and four bytes; an
    overlong form, a surrogate, a code point above U+10FFFF, a cut sequence
    and a stray continuation byte. *)
Example utf8_code_points_cases :
  utf8_code_points [x41; xc3; xa9; xe2; x82; xac; xf0; x9f; x98; x80]
    = Some [0x41; 0xE9; 0x20AC; 0x1F600]%N
  /\ utf8_code_points [xc0; x80] = None
  /\ utf8_code_points [xed; xa0; x80] = None
  /\ utf8_code_points [xf4; x90; x80; x80] = None
  /\ utf8_code_points [xe2; x82] = None
  /\ utf8_code_points [x80] = None.
Proof. repeat split; reflexivity. Qed.

(** [json.dumps] escapes what is not printable ASCII. *)
Example json_dumps_escapes :
  json_dumps (JStr (string_of_list_byte [x61; x5c; x0a; xc3; xa9; xf0; x9f; x98; x80]))
  = quoted "a\\\n\u00e9\ud83d\ude00".
Proof. reflexivity. Qed.

Section Claims.
Context {L : Library}.
Variable w : world.

(** C5: every OPTIONS request, on either server and whatever the request
    holds, gets status 200, the three CORS headers and an empty body; the
    request is not looked at. *)
Theorem options_always_200_cors (s : server) (r : request) :
  handle s w OPTIONS r =
  reply w 200
    [("Access-Control-Allow-Origin", "*");
     ("Access-Control-Allow-Methods", "GET, POST, OPTIONS");
     ("Access-Control-Allow-Headers", "Content-Type")]
    [].
Proof. destruct s; reflexivity. Qed.

(** C4: a POST to a monitoring toggle answers 200 with the success envelope
    and the word of its path, "started" or "stopped", which is the word the
    substring test on the path picks; a second call answers the same,
    whatever requests came before the first or between the two. *)
Theorem monitoring_toggle_idempotent (p word : string)
  (before between : list (world * method * request))
  (w' : world) (r r' : request) :
  In (p, word) monitoring_toggles ->
  urlparse_path (path r) = inr p ->
  urlparse_path (path r') = inr p ->
  let log := serve_forever Server1
               (before ++ (w, POST, r) :: between ++ [(w', POST, r')])%list in
  nth_error log (length before)
    = Some (reply w 200 cors_json (encode (monitoring_text word)))
  /\ nth_error log (length before + S (length between))
     = Some (reply w' 200 cors_json (encode (monitoring_text word)))
  /\ word = (if contains p "start" then "started" else "stopped").
Proof.
  intros Hp Hpath Hpath' log.
  assert (Hone : forall v q, urlparse_path (path q) = inr p ->
            handle Server1 v POST q
            = reply v 200 cors_json (encode (monitoring_text word))).
  { intros v q Hq.
    destruct Hp as [Hp | [Hp | []]]; inversion Hp; subst; clear Hp;
      unfold_handlers; step_with Hq; reflexivity. }
  assert (Hword : word = (if contains p "start" then "started" else "stopped")).
  { destruct Hp as [Hp | [Hp | []]]; inversion Hp; reflexivity. }
  subst log. unfold serve_forever.
  rewrite map_app. cbn [map]. rewrite map_app. cbn [map].
  rewrite <- (Hone w r Hpath), <- (Hone w' r' Hpath').
  repeat split; [| | exact Hword].
  - rewrite nth_error_app2 by (rewrite length_map; lia).
    rewrite length_map, Nat.sub_diag. reflexivity.
  - rewrite nth_error_app2 by (rewrite length_map; lia).
    rewrite length_map.
    replace (length before + S (length between) - length before)
      with (S (length between)) by lia.
    cbn [nth_error].
    rewrite nth_error_app2 by (rewrite length_map; lia).
    rewrite length_map, Nat.sub_diag. reflexivity.
Qed.

(** C2, as amended: a GET of /api/products on server 1 answers 200 with a
    JSON array of exactly 3 product objects, each with the fields _id, name,
    brand, price, stock, in that order; the identifier field is [_id]. *)
Theorem products_three_records (r : request) :
  urlparse_path (path r) = inr "/api/products" ->
  exists items,
    handle Server1 w GET r
      = reply w 200 cors_json (encode (json_dumps (JList items)))
    /\ body_json (handle Server1 w GET r) = inr (JList items)
    /\ length items = 3
    /\ Forall (fun o => keys o = Some ["_id"; "name"; "brand"; "price"; "stock"])
         items.
Proof.
  intros Hpath.
  assert (Hout : handle Server1 w GET r
                 = reply w 200 cors_json
                     (encode (json_dumps AbaiSpringsHandler.products))).
  { unfold_handlers. step_with Hpath. reflexivity. }
  eexists. split; [exact Hout |]. rewrite Hout.
  split; [vm_compute; reflexivity |].
  split; [reflexivity |]. repeat constructor.
Qed.

(** C6: a POST whose path is none of the POST routes gets 404; server 1
    sends no body, server 2 sends the text "Not Found". *)
Theorem unmatched_post_404 (p : string) (r : request) :
  urlparse_path (path r) = inr p ->
  (p <> "/api/stock-alerts/monitoring/start" ->
   p <> "/api/stock-alerts/monitoring/stop" ->
   handle Server1 w POST r = reply w 404 [] [])
  /\ (p <> "/api/auth/staff-login" ->
      handle Server2 w POST r = reply w 404 [] (encode "Not Found")).
Proof.
  intros Hpath. split.
  - intros Hstart Hstop. unfold_handlers. rewrite Hpath.
    apply String.eqb_neq in Hstart, Hstop.
    cbn. rewrite Hstart, Hstop. reflexivity.
  - intros Hlogin. unfold_handlers. rewrite Hpath.
    apply String.eqb_neq in Hlogin. cbn. rewrite Hlogin. reflexivity.
Qed.

(** C7, as amended: a GET of /staff-login or /owner-dashboard on server 2
    always answers 200 with Content-type text/html; the body is the bytes of
    the page's file when the file can be opened and read, the literal
    fallback text when there is no such file; the status is never 404. *)
Theorem special_pages_always_200 (p file fallback : string) (r : request) :
  In (p, (file, fallback)) special_pages ->
  urlparse_path (path r) = inr p ->
  page_served w file fallback (handle Server2 w GET r).
Proof.
  intros Hp Hpath.
  destruct Hp as [Hp | [Hp | []]]; inversion Hp; subst; clear Hp;
    unfold page_served; unfold_handlers; step_with Hpath;
    unfold try_except, open_rb; cbn;
    (destruct (files w _) as [[f | f |] |]); cbn; repeat split; reflexivity.
Qed.

(** C8: whatever the files are, a GET of /admin-fixed on server 1 is the
    static-file handler run on the request with [self.path] set to
    /admin-dashboard-fixed.html, and so is a GET of
    /admin-dashboard-fixed.html itself: the two give the same response. *)
Theorem admin_fixed_same_as_dashboard_file (r : request) :
  urlparse_path (path r) = inr "/admin-fixed" ->
  urlparse_path "/admin-dashboard-fixed.html"
    = inr "/admin-dashboard-fixed.html" ->
  let file := set_path "/admin-dashboard-fixed.html" r in
  handle Server1 w GET r = run (SimpleHTTPRequestHandler_do_GET w file)
  /\ handle Server1 w GET file = run (SimpleHTTPRequestHandler_do_GET w file)
  /\ handle Server1 w GET r = handle Server1 w GET file.
Proof.
  intros Hfixed Hfile file.
  assert (Hrewritten : handle Server1 w GET r
                       = run (SimpleHTTPRequestHandler_do_GET w file)).
  { unfold_handlers. rewrite Hfixed. reflexivity. }
  assert (Hdirect : handle Server1 w GET file
                    = run (SimpleHTTPRequestHandler_do_GET w file)).
  { unfold_handlers. subst file. cbn [path set_path]. rewrite Hfile.
    reflexivity. }
  split; [exact Hrewritten |]. split; [exact Hdirect |].
  rewrite Hrewritten, Hdirect. reflexivity.
Qed.

(** C9: every JSON route of server 1, the seven GET routes and the two POST
    toggles, sends the header Access-Control-Allow-Origin: *. *)
Theorem json_routes_allow_any_origin (m : method) (p : string) (r : request) :
  In (m, p) json_routes ->
  urlparse_path (path r) = inr p ->
  let c := fst (handle Server1 w m r) in
  headers_ended c = true
  /\ In ("Content-type", "application/json") (headers c)
  /\ In ("Access-Control-Allow-Origin", "*") (headers c).
Proof.
  intros Hroute Hpath. unfold json_routes in Hroute. cbn [In] in Hroute.
  repeat (destruct Hroute as [Hroute | Hroute];
          [inversion Hroute; subst; clear Hroute;
           unfold_handlers; step_with Hpath;
           repeat split; [right; right; left; reflexivity
                         | right; right; right; left; reflexivity] |]).
  contradiction.
Qed.

(** ** The staff login of server 2 *)

(** A body that is a JSON object whose email and role print: status 200
    with the token exactly when the three fields match the owner's
    credentials, 401 otherwise; a field that is missing counts as the empty
    string. *)
Lemma staff_login_checks_credentials (r : request) (n : Z) (post_data : bytes)
  (text : string) (d : list (string * json)) :
  urlparse_path (path r) = inr "/api/auth/staff-login" ->
  int (headers_getitem (req_headers r) "Content-Length") = inr n ->
  rfile_read r n = inr post_data ->
  decode_utf8 post_data = inr text ->
  json_loads text = inr (JDict d) ->
  print [field d "email"; field d "role"] = inr tt ->
  handle Server2 w POST r =
  if credentials_match d
  then reply w 200 login_headers (encode login_ok_text)
  else reply w 401 login_headers (encode login_failed_text).
Proof.
  intros Hpath Hlen Hread Htext Hjson Hprint. unfold_handlers.
  step_with Hpath. step_with Hlen. step_with Hread. unfold try_except. cbn.
  step_with Htext. step_with Hjson.
  fold (field d "email") (field d "password") (field d "role").
  rewrite Hprint. cbn.
  unfold credentials_match.
  destruct (eq_str _ "admin@abaisprings.com" && eq_str _ "password123"
            && eq_str _ "owner"); reflexivity.
Qed.

(** A body that is a JSON object whose email or role is no text: the line
    that prints them raises inside the [try], no clause catches it, nothing
    is sent. *)
Lemma staff_login_unprintable (r : request) (n : Z) (post_data : bytes)
  (text : string) (d : list (string * json)) (e : exn) :
  urlparse_path (path r) = inr "/api/auth/staff-login" ->
  int (headers_getitem (req_headers r) "Content-Length") = inr n ->
  rfile_read r n = inr post_data ->
  decode_utf8 post_data = inr text ->
  json_loads text = inr (JDict d) ->
  print [field d "email"; field d "role"] = inl e ->
  handle Server2 w POST r = crash UnicodeEncodeError.
Proof.
  intros Hpath Hlen Hread Htext Hjson Hprint. unfold_handlers.
  step_with Hpath. step_with Hlen. step_with Hread. unfold try_except. cbn.
  step_with Htext. step_with Hjson.
  fold (field d "email") (field d "password") (field d "role").
  unfold print in *.
  destruct (forallb is_text [field d "email"; field d "role"]);
    [discriminate Hprint | reflexivity].
Qed.

(** The owner's strings are text. *)
Lemma owner_credentials_print (d : list (string * json)) :
  credentials_match d = true ->
  print [field d "email"; field d "role"] = inr tt.
Proof.
  unfold credentials_match. rewrite !andb_true_iff.
  intros [[Hemail _] Hrole].
  destruct (field d "email") as [| | | | s | |]; try discriminate Hemail.
  destruct (field d "role") as [| | | | s' | |]; try discriminate Hrole.
  cbn in Hemail, Hrole. apply String.eqb_eq in Hemail, Hrole. subst.
  reflexivity.
Qed.

(** The credentials match only when each of the three fields is the
    expected string. *)
Lemma credentials_match_iff (d : list (string * json)) :
  credentials_match d = true <->
  dict_lookup d "email" = Some (JStr "admin@abaisprings.com")
  /\ dict_lookup d "password" = Some (JStr "password123")
  /\ dict_lookup d "role" = Some (JStr "owner").
Proof.
  unfold credentials_match, field. rewrite !andb_true_iff.
  assert (Hfield : forall k s, s <> "" ->
            (eq_str match dict_lookup d k with
                    | Some v => v
                    | None => JStr ""
                    end s = true
             <-> dict_lookup d k = Some (JStr s))).
  { intros k s Hs. destruct (dict_lookup d k) as [v |]; cbn.
    - destruct v; cbn; try (split; [discriminate | intros H; inversion H]).
      rewrite String.eqb_eq. split; [intros -> | intros H; inversion H]; reflexivity.
    - split; [| discriminate]. destruct s; [contradiction | discriminate]. }
  rewrite !Hfield by discriminate. tauto.
Qed.

(** X9: a login body that decodes as UTF-8 and on which [json.loads] raises
    [JSONDecodeError], the empty body among them, gets 400 and the error
    object, without CORS headers. *)
Lemma staff_login_invalid_json_400 (r : request) (n : Z) (post_data : bytes)
  (text : string) :
  urlparse_path (path r) = inr "/api/auth/staff-login" ->
  int (headers_getitem (req_headers r) "Content-Length") = inr n ->
  rfile_read r n = inr post_data ->
  decode_utf8 post_data = inr text ->
  json_loads text = inl JSONDecodeError ->
  handle Server2 w POST r
    = reply w 400 [("Content-type", "application/json")]
        (encode invalid_json_text).
Proof.
  intros Hpath Hlen Hread Htext Hjson. unfold_handlers.
  step_with Hpath. step_with Hlen. step_with Hread. unfold try_except. cbn.
  step_with Htext. step_with Hjson. reflexivity.
Qed.

(** A body that is JSON but not an object: [data.get] raises inside the
    [try], no clause catches it, nothing is sent. *)
Lemma staff_login_not_a_dict (r : request) (n : Z) (post_data : bytes)
  (text : string) (v : json) :
  urlparse_path (path r) = inr "/api/auth/staff-login" ->
  int (headers_getitem (req_headers r) "Content-Length") = inr n ->
  rfile_read r n = inr post_data ->
  decode_utf8 post_data = inr text ->
  json_loads text = inr v ->
  keys v = None ->
  handle Server2 w POST r = crash AttributeError.
Proof.
  intros Hpath Hlen Hread Htext Hjson Hkeys. unfold_handlers.
  step_with Hpath. step_with Hlen. step_with Hread. unfold try_except. cbn.
  step_with Htext. step_with Hjson.
  destruct v; try discriminate Hkeys; reflexivity.
Qed.

(** A body that is not UTF-8: [decode] raises inside the [try], no clause
    catches it, nothing is sent. *)
Lemma staff_login_not_utf8 (r : request) (n : Z) (post_data : bytes) :
  urlparse_path (path r) = inr "/api/auth/staff-login" ->
  int (headers_getitem (req_headers r) "Content-Length") = inr n ->
  rfile_read r n = inr post_data ->
  utf8_code_points post_data = None ->
  handle Server2 w POST r = crash UnicodeDecodeError.
Proof.
  intros Hpath Hlen Hread Hbad. unfold_handlers.
  step_with Hpath. step_with Hlen. step_with Hread.
  unfold try_except, decode_utf8. cbn. rewrite Hbad. reflexivity.
Qed.

(** C1, at the body [[]]: the body parses as JSON, a list has no [get], the
    [AttributeError] passes the [except json.JSONDecodeError] clause and no
    response is sent, neither 200 nor 401. *)
Theorem staff_login_array_body_crashes :
  let r := mkRequest "/api/auth/staff-login" [("Content-Length", "2")]
             (encode "[]") in
  urlparse_path "/api/auth/staff-login" = inr "/api/auth/staff-login" ->
  int_of_str "2" = inr 2%Z ->
  rfile_read r 2 = inr (encode "[]") ->
  json_loads "[]" = inr (JList []) ->
  handle Server2 w POST r = crash AttributeError.
Proof.
  intros r Hpath Hlen Hread Hjson.
  apply (staff_login_not_a_dict r 2 (encode "[]") "[]" (JList []));
    [exact Hpath | exact Hlen | exact Hread | reflexivity | exact Hjson
    | reflexivity].
Qed.

(** C3, at the one-byte body 0xFF: the body is not JSON, [decode] raises
    [UnicodeDecodeError] inside the [try], the [except json.JSONDecodeError]
    clause does not catch it and no 400 is sent. *)
Theorem staff_login_non_utf8_body_crashes :
  let r := mkRequest "/api/auth/staff-login" [("Content-Length", "1")] [xff] in
  urlparse_path "/api/auth/staff-login" = inr "/api/auth/staff-login" ->
  int_of_str "1" = inr 1%Z ->
  rfile_read r 1 = inr [xff] ->
  handle Server2 w POST r = crash UnicodeDecodeError.
Proof.
  intros r Hpath Hlen Hread.
  apply (staff_login_not_utf8 r 1 [xff]);
    [exact Hpath | exact Hlen | exact Hread | reflexivity].
Qed.

(** C10: a login POST whose Content-Length header is absent, or whose body
    is not UTF-8, raises an exception that is not a [JSONDecodeError], so the
    400 branch does not run, and nothing at all is sent. *)
Theorem staff_login_uncaught_exception (r : request) :
  urlparse_path (path r) = inr "/api/auth/staff-login" ->
  headers_getitem (req_headers r) "Content-Length" = None
  \/ (exists n post_data,
        int (headers_getitem (req_headers r) "Content-Length") = inr n
        /\ rfile_read r n = inr post_data
        /\ decode_utf8 post_data = inl UnicodeDecodeError) ->
  exists e,
    handle Server2 w POST r = crash e
    /\ (e = TypeError \/ e = UnicodeDecodeError)
    /\ issubclass e JSONDecodeError = false
    /\ no_response (fst (handle Server2 w POST r)).
Proof.
  intros Hpath [Habsent | (n & post_data & Hlen & Hread & Hbad)].
  - exists TypeError.
    assert (Hout : handle Server2 w POST r = crash TypeError).
    { unfold_handlers. step_with Hpath. step_with Habsent. reflexivity. }
    rewrite Hout. repeat split; auto.
  - exists UnicodeDecodeError.
    assert (Hcps : utf8_code_points post_data = None).
    { unfold decode_utf8 in Hbad.
      destruct (utf8_code_points post_data); [discriminate | reflexivity]. }
    rewrite (staff_login_not_utf8 r n post_data Hpath Hlen Hread Hcps).
    repeat split; auto.
Qed.

End Claims.

(** ** Runs with the reference library *)

Lemma monitoring_toggle_idempotent_witness :
  let before :=
    [(Reference.world_of [], POST,
      Reference.post_request "/api/stock-alerts/monitoring/start" []);
     (Reference.site, GET, Reference.get_request "/api/stock-alerts")] in
  let between :=
    [(Reference.site, POST,
      Reference.post_request "/api/stock-alerts/monitoring/start" [])] in
  let r := Reference.post_request "/api/stock-alerts/monitoring/stop" [] in
  let r' := Reference.post_request "/api/stock-alerts/monitoring/stop?again" [] in
  let log := serve_forever (L := Reference.lib) Server1
               (before ++ (Reference.site, POST, r)
                  :: between ++ [(Reference.world_of [], POST, r')])%list in
  In ("/api/stock-alerts/monitoring/stop", "stopped") monitoring_toggles
  /\ Reference.urlparse_path (path r) = inr "/api/stock-alerts/monitoring/stop"
  /\ Reference.urlparse_path (path r') = inr "/api/stock-alerts/monitoring/stop"
  /\ nth_error log 2
     = Some (reply Reference.site 200 cors_json
               (encode (monitoring_text "stopped")))
  /\ nth_error log 4
     = Some (reply (Reference.world_of []) 200 cors_json
               (encode (monitoring_text "stopped")))
  /\ "stopped"
     = (if contains "/api/stock-alerts/monitoring/stop" "start"
        then "started" else "stopped").
Proof.
  intros before between r r' log.
  assert (Hin : In ("/api/stock-alerts/monitoring/stop", "stopped")
                  monitoring_toggles) by (right; left; reflexivity).
  assert (Hpath : @urlparse_path Reference.lib (path r)
                  = inr "/api/stock-alerts/monitoring/stop") by reflexivity.
  assert (Hpath' : @urlparse_path Reference.lib (path r')
                   = inr "/api/stock-alerts/monitoring/stop") by reflexivity.
  exact (conj Hin (conj Hpath (conj Hpath'
           (monitoring_toggle_idempotent (L := Reference.lib) Reference.site
              _ _ before between (Reference.world_of []) r r'
              Hin Hpath Hpath')))).
Defined.

Lemma products_three_records_witness :
  let r := Reference.get_request "/api/products?page=2" in
  Reference.urlparse_path (path r) = inr "/api/products"
  /\ exists items,
       handle (L := Reference.lib) Server1 Reference.site GET r
         = reply Reference.site 200 cors_json (encode (json_dumps (JList items)))
       /\ body_json (handle (L := Reference.lib) Server1 Reference.site GET r)
          = inr (JList items)
       /\ length items = 3
       /\ Forall (fun o => keys o = Some ["_id"; "name"; "brand"; "price"; "stock"])
            items.
Proof.
  intros r.
  assert (Hpath : @urlparse_path Reference.lib (path r) = inr "/api/products")
    by reflexivity.
  split; [exact Hpath |].
  exact (products_three_records (L := Reference.lib) Reference.site r Hpath).
Defined.

(** C2, as stated, fails: the three objects of the body have no field
    [id]; the identifier is under [_id]. *)
Lemma products_lack_id_field :
  let out := handle (L := Reference.lib) Server1 Reference.site GET
               (Reference.get_request "/api/products") in
  ~ (status (fst out) = Some 200%Z
     /\ exists items,
          body_json out = inr (JList items)
          /\ length items = 3
          /\ Forall (fun o => forallb (has_field o)
                                ["id"; "name"; "brand"; "price"; "stock"] = true)
               items).
Proof.
  intros out (_ & items & Hbody & _ & Hfields).
  assert (Hread : body_json out = inr AbaiSpringsHandler.products)
    by (vm_compute; reflexivity).
  rewrite Hread in Hbody. injection Hbody as <-.
  inversion Hfields as [| o rest Hfirst _]. discriminate Hfirst.
Qed.

Lemma unmatched_post_404_witness :
  let r := Reference.post_request "/api/orders" [] in
  Reference.urlparse_path (path r) = inr "/api/orders"
  /\ "/api/orders" <> "/api/stock-alerts/monitoring/start"
  /\ "/api/orders" <> "/api/stock-alerts/monitoring/stop"
  /\ "/api/orders" <> "/api/auth/staff-login"
  /\ handle (L := Reference.lib) Server1 Reference.site POST r
     = reply Reference.site 404 [] []
  /\ handle (L := Reference.lib) Server2 Reference.site POST r
     = reply Reference.site 404 [] (encode "Not Found").
Proof.
  intros r.
  assert (Hpath : @urlparse_path Reference.lib (path r) = inr "/api/orders")
    by reflexivity.
  assert (Hstart : "/api/orders" <> "/api/stock-alerts/monitoring/start")
    by discriminate.
  assert (Hstop : "/api/orders" <> "/api/stock-alerts/monitoring/stop")
    by discriminate.
  assert (Hlogin : "/api/orders" <> "/api/auth/staff-login") by discriminate.
  pose proof (unmatched_post_404 (L := Reference.lib) Reference.site _ r Hpath)
    as [H1 H2].
  exact (conj Hpath (conj Hstart (conj Hstop (conj Hlogin
           (conj (H1 Hstart Hstop) (H2 Hlogin)))))).
Defined.

Lemma special_pages_always_200_witness :
  let r := Reference.get_request "/staff-login" in
  In ("/staff-login",
      ("staff-login.html", "<h1>Staff Login Page Not Found</h1>"))
     special_pages
  /\ Reference.urlparse_path (path r) = inr "/staff-login"
  /\ page_served Reference.site "staff-login.html"
       "<h1>Staff Login Page Not Found</h1>"
       (handle (L := Reference.lib) Server2 Reference.site GET r).
Proof.
  intros r.
  assert (Hin : In ("/staff-login",
                    ("staff-login.html", "<h1>Staff Login Page Not Found</h1>"))
                  special_pages) by (left; reflexivity).
  assert (Hpath : @urlparse_path Reference.lib (path r) = inr "/staff-login")
    by reflexivity.
  split; [exact Hin |]. split; [exact Hpath |].
  exact (special_pages_always_200 (L := Reference.lib) Reference.site
           _ _ _ r Hin Hpath).
Defined.

(** C7, as stated, fails: the login page is in the directory with its bytes
    but may not be read; [open] raises [PermissionError] after the status
    and the header are out, and the body is neither the file's bytes nor
    the fallback text. *)
Lemma unreadable_page_body_empty :
  let out := handle (L := Reference.lib) Server2 Reference.locked GET
               (Reference.get_request "/staff-login") in
  ~ (status (fst out) = Some 200%Z
     /\ In ("Content-type", "text/html") (headers (fst out))
     /\ body (fst out)
        = match file_bytes Reference.locked "staff-login.html" with
          | Some f => f
          | None => encode "<h1>Staff Login Page Not Found</h1>"
          end).
Proof.
  intros out (_ & _ & Hbody). vm_compute in Hbody. discriminate Hbody.
Qed.

(** What that request gets instead. *)
Example unreadable_page_run :
  handle (L := Reference.lib) Server2 Reference.locked GET
    (Reference.get_request "/staff-login")
  = (mkConn (Some 200%Z)
       (base_headers Reference.locked ++ [("Content-type", "text/html")])%list
       true [],
     inl PermissionError).
Proof. reflexivity. Qed.

Lemma admin_fixed_same_as_dashboard_file_witness :
  let r := Reference.get_request "/admin-fixed" in
  let file := Reference.get_request "/admin-dashboard-fixed.html" in
  Reference.urlparse_path (path r) = inr "/admin-fixed"
  /\ Reference.urlparse_path "/admin-dashboard-fixed.html"
     = inr "/admin-dashboard-fixed.html"
  /\ handle (L := Reference.lib) Server1 Reference.site GET r
     = run (Reference.SimpleHTTPRequestHandler_do_GET Reference.site file)
  /\ handle (L := Reference.lib) Server1 Reference.site GET file
     = run (Reference.SimpleHTTPRequestHandler_do_GET Reference.site file)
  /\ handle (L := Reference.lib) Server1 Reference.site GET r
     = handle (L := Reference.lib) Server1 Reference.site GET file.
Proof.
  intros r file.
  assert (Hfixed : @urlparse_path Reference.lib (path r) = inr "/admin-fixed")
    by reflexivity.
  assert (Hfile : @urlparse_path Reference.lib "/admin-dashboard-fixed.html"
                  = inr "/admin-dashboard-fixed.html") by reflexivity.
  exact (conj Hfixed (conj Hfile
           (admin_fixed_same_as_dashboard_file (L := Reference.lib)
              Reference.site r Hfixed Hfile))).
Defined.

(** The dashboard file of the reference directory, served under both
    names. *)
Example admin_fixed_serves_dashboard_file :
  handle (L := Reference.lib) Server1 Reference.site GET
    (Reference.get_request "/admin-fixed")
  = reply Reference.site 200
      [("Content-type", "application/octet-stream"); ("Content-Length", "18")]
      (encode "<html>admin</html>").
Proof. reflexivity. Qed.

Lemma json_routes_allow_any_origin_witness :
  let r := Reference.get_request "/api/orders#top" in
  In (GET, "/api/orders") json_routes
  /\ Reference.urlparse_path (path r) = inr "/api/orders"
  /\ In ("Access-Control-Allow-Origin", "*")
       (headers (fst (handle (L := Reference.lib) Server1 Reference.site GET r))).
Proof.
  intros r.
  assert (Hin : In (GET, "/api/orders") json_routes)
    by (do 3 right; left; reflexivity).
  assert (Hpath : @urlparse_path Reference.lib (path r) = inr "/api/orders")
    by reflexivity.
  split; [exact Hin |]. split; [exact Hpath |].
  exact (proj2 (proj2 (json_routes_allow_any_origin (L := Reference.lib)
                         Reference.site _ _ r Hin Hpath))).
Defined.

Lemma staff_login_array_body_crashes_witness :
  let r := mkRequest "/api/auth/staff-login" [("Content-Length", "2")]
             (encode "[]") in
  Reference.urlparse_path "/api/auth/staff-login" = inr "/api/auth/staff-login"
  /\ Reference.int_of_str "2" = inr 2%Z
  /\ Reference.rfile_read r 2 = inr (encode "[]")
  /\ Reference.json_loads "[]" = inr (JList [])
  /\ handle (L := Reference.lib) Server2 Reference.site POST r
     = crash AttributeError.
Proof.
  intros r.
  assert (Hpath : @urlparse_path Reference.lib "/api/auth/staff-login"
                  = inr "/api/auth/staff-login") by reflexivity.
  assert (Hlen : @int_of_str Reference.lib "2" = inr 2%Z) by reflexivity.
  assert (Hread : @rfile_read Reference.lib r 2 = inr (encode "[]"))
    by reflexivity.
  assert (Hjson : @json_loads Reference.lib "[]" = inr (JList []))
    by reflexivity.
  exact (conj Hpath (conj Hlen (conj Hread (conj Hjson
           (staff_login_array_body_crashes (L := Reference.lib) Reference.site
              Hpath Hlen Hread Hjson))))).
Defined.

Lemma staff_login_non_utf8_body_crashes_witness :
  let r := mkRequest "/api/auth/staff-login" [("Content-Length", "1")] [xff] in
  Reference.urlparse_path "/api/auth/staff-login" = inr "/api/auth/staff-login"
  /\ Reference.int_of_str "1" = inr 1%Z
  /\ Reference.rfile_read r 1 = inr [xff]
  /\ handle (L := Reference.lib) Server2 Reference.site POST r
     = crash UnicodeDecodeError.
Proof.
  intros r.
  assert (Hpath : @urlparse_path Reference.lib "/api/auth/staff-login"
                  = inr "/api/auth/staff-login") by reflexivity.
  assert (Hlen : @int_of_str Reference.lib "1" = inr 1%Z) by reflexivity.
  assert (Hread : @rfile_read Reference.lib r 1 = inr [xff]) by reflexivity.
  exact (conj Hpath (conj Hlen (conj Hread
           (staff_login_non_utf8_body_crashes (L := Reference.lib)
              Reference.site Hpath Hlen Hread)))).
Defined.

Lemma staff_login_uncaught_exception_witness :
  let r := Reference.post_request "/api/auth/staff-login" [xc3; x28] in
  Reference.urlparse_path (path r) = inr "/api/auth/staff-login"
  /\ (exists n post_data,
        int (L := Reference.lib) (headers_getitem (req_headers r) "Content-Length")
          = inr n
        /\ Reference.rfile_read r n = inr post_data
        /\ decode_utf8 post_data = inl UnicodeDecodeError)
  /\ exists e,
       handle (L := Reference.lib) Server2 Reference.site POST r = crash e
       /\ (e = TypeError \/ e = UnicodeDecodeError)
       /\ issubclass e JSONDecodeError = false
       /\ no_response (fst (handle (L := Reference.lib) Server2 Reference.site POST r)).
Proof.
  intros r.
  assert (Hpath : @urlparse_path Reference.lib (path r)
                  = inr "/api/auth/staff-login") by reflexivity.
  assert (Hbody : exists n post_data,
             int (L := Reference.lib)
               (headers_getitem (req_headers r) "Content-Length") = inr n
             /\ @rfile_read Reference.lib r n = inr post_data
             /\ decode_utf8 post_data = inl UnicodeDecodeError)
    by (exists 2%Z, [xc3; x28]; repeat split; reflexivity).
  exact (conj Hpath (conj Hbody
           (staff_login_uncaught_exception (L := Reference.lib) Reference.site r
              Hpath (or_intror Hbody)))).
Defined.

(** The login of server 2 on the owner's credentials and on each single
    field changed or left out. *)
Example login_owner_200 :
  handle (L := Reference.lib) Server2 Reference.site POST
    (Reference.post_request "/api/auth/staff-login"
       (login_body "admin@abaisprings.com" "password123" "owner"))
  = reply Reference.site 200 login_headers (encode login_ok_text).
Proof. reflexivity. Qed.

Example login_wrong_email_401 :
  handle (L := Reference.lib) Server2 Reference.site POST
    (Reference.post_request "/api/auth/staff-login"
       (login_body "Admin@abaisprings.com" "password123" "owner"))
  = reply Reference.site 401 login_headers (encode login_failed_text).
Proof. reflexivity. Qed.

Example login_wrong_password_401 :
  handle (L := Reference.lib) Server2 Reference.site POST
    (Reference.post_request "/api/auth/staff-login"
       (login_body "admin@abaisprings.com" "password124" "owner"))
  = reply Reference.site 401 login_headers (encode login_failed_text).
Proof. reflexivity. Qed.

Example login_wrong_role_401 :
  handle (L := Reference.lib) Server2 Reference.site POST
    (Reference.post_request "/api/auth/staff-login"
       (login_body "admin@abaisprings.com" "password123" "staff"))
  = reply Reference.site 401 login_headers (encode login_failed_text).
Proof. reflexivity. Qed.

Example login_empty_object_401 :
  handle (L := Reference.lib) Server2 Reference.site POST
    (Reference.post_request "/api/auth/staff-login" (encode "{}"))
  = reply Reference.site 401 login_headers (encode login_failed_text).
Proof. reflexivity. Qed.

Example login_not_json_400 :
  handle (L := Reference.lib) Server2 Reference.site POST
    (Reference.post_request "/api/auth/staff-login" (encode "email=admin"))
  = reply Reference.site 400 [("Content-type", "application/json")]
      (encode invalid_json_text).
Proof. reflexivity. Qed.

Example login_without_content_length :
  handle (L := Reference.lib) Server2 Reference.site POST
    (mkRequest "/api/auth/staff-login" [("Host", "localhost")] (encode "{}"))
  = crash TypeError.
Proof. reflexivity. Qed.

(** The owner dashboard is not in the reference directory: 200 and the
    fallback text. *)
Example owner_dashboard_missing_200 :
  handle (L := Reference.lib) Server2 Reference.site GET
    (Reference.get_request "/owner-dashboard")
  = reply Reference.site 200 [("Content-type", "text/html")]
      (encode "<h1>Owner Dashboard Not Found</h1>").
Proof. reflexivity. Qed.

(** The bodies the handlers print read back as the values they printed. *)
Example fixtures_read_back :
  map (fun v => Reference.json_loads (json_dumps v))
    [AbaiSpringsHandler.products; AbaiSpringsHandler.outlets;
     AbaiSpringsHandler.orders; AbaiSpringsHandler.users;
     AbaiSpringsHandler.statistics; StaffPortalHandler.health;
     StaffPortalHandler.login_ok; StaffPortalHandler.login_failed;
     StaffPortalHandler.invalid_json]
  = map inr
      [AbaiSpringsHandler.products; AbaiSpringsHandler.outlets;
       AbaiSpringsHandler.orders; AbaiSpringsHandler.users;
       AbaiSpringsHandler.statistics; StaffPortalHandler.health;
       StaffPortalHandler.login_ok; StaffPortalHandler.login_failed;
       StaffPortalHandler.invalid_json].
Proof. vm_compute. reflexivity. Qed.

(** * Further properties of the handlers *)

(** ** What [json.dumps] prints for plain text *)

Lemma plain_ascii_escape (a : ascii) :
  plain_ascii a = true ->
  (Byte.to_N (byte_of_ascii a) <? 0x80)%N = true
  /\ escape_code_point (Byte.to_N (byte_of_ascii a)) = String a EmptyString.
Proof.
  destruct a as [[] [] [] [] [] [] [] []]; intros H;
    try discriminate H; split; reflexivity.
Qed.

Lemma utf8_code_points_ascii (b : byte) (bs : bytes) :
  (Byte.to_N b <? 0x80)%N = true ->
  utf8_code_points (b :: bs)
  = option_map (cons (Byte.to_N b)) (utf8_code_points bs).
Proof. intros H. cbn [utf8_code_points]. rewrite H. reflexivity. Qed.

Lemma plain_code_points (s : string) :
  plain s = true ->
  exists cps,
    utf8_code_points (list_byte_of_string s) = Some cps
    /\ String.concat "" (map escape_code_point cps) = s.
Proof.
  induction s as [| a t IH]; intros H.
  - exists []. split; reflexivity.
  - cbn [plain] in H. apply andb_true_iff in H as [Ha Ht].
    destruct (IH Ht) as (cps & Hcps & Hcat).
    destruct (plain_ascii_escape a Ha) as [Hlt Hesc].
    exists (Byte.to_N (byte_of_ascii a) :: cps). split.
    + change (list_byte_of_string (String a t))
        with (byte_of_ascii a :: list_byte_of_string t).
      rewrite (utf8_code_points_ascii _ _ Hlt), Hcps. reflexivity.
    + cbn [map]. rewrite Hesc.
      destruct cps as [| c cps'].
      * cbn in Hcat. subst t. reflexivity.
      * change (String.concat "" (String a "" :: map escape_code_point (c :: cps')))
          with (String a "" ++ ""
                ++ String.concat "" (map escape_code_point (c :: cps'))).
        rewrite Hcat. reflexivity.
Qed.

Lemma encode_basestring_ascii_plain (s : string) :
  plain s = true -> encode_basestring_ascii s = quoted s.
Proof.
  intros H. destruct (plain_code_points s H) as (cps & Hcps & Hcat).
  unfold encode_basestring_ascii, quoted. cbv zeta.
  rewrite Hcps, Hcat. reflexivity.
Qed.

Section Further.
Context {L : Library}.
Variable w : world.

(** ** Dispatch *)

(** X1: a GET on server 1 whose path is none of the eight paths [do_GET]
    names goes to the static-file handler with the request as it came: the
    match is on the whole path, and [self.path] keeps its query string. *)
Theorem server1_get_static_fallback (p : string) (r : request) :
  urlparse_path (path r) = inr p ->
  str_in p server1_get_routes = false ->
  handle Server1 w GET r = run (SimpleHTTPRequestHandler_do_GET w r).
Proof.
  intros Hpath Hnone. unfold server1_get_routes, str_in in Hnone.
  cbn [existsb] in Hnone. repeat rewrite orb_false_iff in Hnone.
  destruct Hnone as (H1 & H2 & H3 & H4 & H5 & H6 & H7 & H8 & _).
  unfold_handlers. rewrite Hpath. cbn.
  rewrite H1, H2, H3, H4, H5, H6, H7, H8. reflexivity.
Qed.

(** X2: a GET on server 2 whose path is none of the three paths [do_GET]
    names goes to the static-file handler with the request as it came. *)
Theorem server2_get_static_fallback (p : string) (r : request) :
  urlparse_path (path r) = inr p ->
  str_in p server2_get_routes = false ->
  handle Server2 w GET r = run (SimpleHTTPRequestHandler_do_GET w r).
Proof.
  intros Hpath Hnone. unfold server2_get_routes, str_in in Hnone.
  cbn [existsb] in Hnone. repeat rewrite orb_false_iff in Hnone.
  destruct Hnone as (H1 & H2 & H3 & _).
  unfold_handlers. rewrite Hpath. cbn. rewrite H1, H2, H3. reflexivity.
Qed.

(** X3: when [urlparse] raises on the request target, a GET or a POST on
    either server ends with that exception and nothing is sent. *)
Theorem urlparse_failure_sends_nothing (s : server) (m : method) (e : exn)
  (r : request) :
  m <> OPTIONS ->
  urlparse_path (path r) = inl e ->
  handle s w m r = crash e.
Proof.
  intros Hm Hpath.
  destruct s, m; try contradiction; unfold_handlers; rewrite Hpath;
    reflexivity.
Qed.

(** X13: [do_POST] of server 1 reads the path and nothing else of the
    request: two requests with the same parsed path get the same answer,
    whatever their headers and bodies. *)
Theorem server1_post_reads_only_path (r r' : request) :
  urlparse_path (path r) = urlparse_path (path r') ->
  handle Server1 w POST r = handle Server1 w POST r'.
Proof. intros Hsame. unfold_handlers. rewrite Hsame. reflexivity. Qed.

(** ** The fixtures of server 1 *)

(** X10: a GET of /api/outlets, /api/orders, /api/auth/users or
    /api/stock-alerts on server 1 answers 200 with the CORS header and a JSON
    array: two outlets, two orders, two users, each record with the fields of
    its kind and the identifier under [_id]; no stock alert at all. *)
Theorem server1_list_routes (p : string) (n : nat) (fields : list string)
  (r : request) :
  In (p, (n, fields)) list_routes ->
  urlparse_path (path r) = inr p ->
  exists items,
    handle Server1 w GET r
      = reply w 200 cors_json (encode (json_dumps (JList items)))
    /\ body_json (handle Server1 w GET r) = inr (JList items)
    /\ length items = n
    /\ Forall (fun o => keys o = Some fields) items.
Proof.
  intros Hroute Hpath. unfold list_routes in Hroute. cbn [In] in Hroute.
  assert (Hshape : forall v items,
            v = JList items ->
            handle Server1 w GET r
              = reply w 200 cors_json (encode (json_dumps v)) ->
            body_json (reply w 200 cors_json (encode (json_dumps v))) = inr v ->
            length items = n ->
            Forall (fun o => keys o = Some fields) items ->
            exists items,
              handle Server1 w GET r
                = reply w 200 cors_json (encode (json_dumps (JList items)))
              /\ body_json (handle Server1 w GET r) = inr (JList items)
              /\ length items = n
              /\ Forall (fun o => keys o = Some fields) items).
  { intros v items -> Hout Hback Hlen Hkeys. exists items.
    rewrite Hout. repeat split; assumption. }
  destruct Hroute as [Hr | [Hr | [Hr | [Hr | []]]]];
    inversion Hr; subst; clear Hr.
  - apply (Hshape AbaiSpringsHandler.outlets _ eq_refl);
      [unfold_handlers; step_with Hpath; reflexivity
      | vm_compute; reflexivity | reflexivity | repeat constructor].
  - apply (Hshape AbaiSpringsHandler.orders _ eq_refl);
      [unfold_handlers; step_with Hpath; reflexivity
      | vm_compute; reflexivity | reflexivity | repeat constructor].
  - apply (Hshape AbaiSpringsHandler.users _ eq_refl);
      [unfold_handlers; step_with Hpath; reflexivity
      | vm_compute; reflexivity | reflexivity | repeat constructor].
  - apply (Hshape (JList []) _ eq_refl);
      [unfold_handlers; step_with Hpath; reflexivity
      | vm_compute; reflexivity | reflexivity | constructor].
Qed.

(** X11: a GET of /api/health on server 1 answers 200 with the CORS header
    and the object of status, message and timestamp; the timestamp is the
    clock's [isoformat] text, printed as it is when it is plain text. *)
Theorem server1_health_timestamp (r : request) :
  urlparse_path (path r) = inr "/api/health" ->
  plain (now_isoformat w) = true ->
  handle Server1 w GET r
    = reply w 200 cors_json (encode (health_text (now_isoformat w))).
Proof.
  intros Hpath Hplain.
  assert (Hdumps : json_dumps (AbaiSpringsHandler.health w)
                   = health_text (now_isoformat w)).
  { unfold AbaiSpringsHandler.health. cbn [json_dumps map].
    rewrite (encode_basestring_ascii_plain _ Hplain). reflexivity. }
  rewrite <- Hdumps. unfold_handlers. rewrite Hpath. reflexivity.
Qed.

(** X14: the statistics of server 1 are a constant: whatever requests were
    served before, monitoring toggles among them, a GET of
    /api/stock-alerts/statistics answers 200 with the same four numbers and
    [monitoringActive] true. *)
Theorem statistics_unaffected_by_toggles
  (prior : list (world * method * request)) (r : request) :
  urlparse_path (path r) = inr "/api/stock-alerts/statistics" ->
  nth_error (serve_forever Server1 (prior ++ [(w, GET, r)])%list) (length prior)
    = Some (reply w 200 cors_json (encode statistics_text)).
Proof.
  intros Hpath. unfold serve_forever.
  rewrite map_app, nth_error_app2 by (rewrite length_map; lia).
  rewrite length_map, Nat.sub_diag. cbn [map nth_error]. f_equal.
  unfold_handlers. step_with Hpath. reflexivity.
Qed.

(** X12: a GET of /api/health on server 2 answers 200 with the object of
    status, message and endpoints as JSON, and, unlike server 1, without an
    Access-Control-Allow-Origin header. *)
Theorem server2_health_no_cors (r : request) :
  urlparse_path (path r) = inr "/api/health" ->
  handle Server2 w GET r
    = reply w 200 [("Content-type", "application/json")]
        (encode staff_health_text)
  /\ forall v, ~ In ("Access-Control-Allow-Origin", v)
                  (headers (fst (handle Server2 w GET r))).
Proof.
  intros Hpath.
  assert (Hout : handle Server2 w GET r
                 = reply w 200 [("Content-type", "application/json")]
                     (encode staff_health_text))
    by (unfold_handlers; step_with Hpath; reflexivity).
  split; [exact Hout |]. rewrite Hout. cbn.
  intros v [H | [H | [H | []]]]; discriminate H.
Qed.

(** ** The staff login, over every request *)


(** X7: when [json.loads] raises an exception that is not a
    [JSONDecodeError], such as a [RecursionError] on deep nesting, the
    [except] clause lets it through: no 400, nothing is sent. *)
Theorem staff_login_other_parse_error_uncaught (r : request) (n : Z)
  (post_data : bytes) (text : string) (e : exn) :
  urlparse_path (path r) = inr "/api/auth/staff-login" ->
  int (headers_getitem (req_headers r) "Content-Length") = inr n ->
  rfile_read r n = inr post_data ->
  decode_utf8 post_data = inr text ->
  json_loads text = inl e ->
  issubclass e JSONDecodeError = false ->
  handle Server2 w POST r = crash e.
Proof.
  intros Hpath Hlen Hread Htext Hjson Hclass. unfold_handlers.
  step_with Hpath. step_with Hlen. step_with Hread. unfold try_except. cbn.
  step_with Htext. step_with Hjson.
  destruct e; try discriminate Hclass; reflexivity.
Qed.

(** X8: a Content-Length that [int] refuses, or a length that [read]
    refuses, ends the login with that exception before the [try] is entered:
    nothing is sent, whatever the class of the exception. *)
Theorem staff_login_bad_length_uncaught (r : request) (e : exn) :
  urlparse_path (path r) = inr "/api/auth/staff-login" ->
  int (headers_getitem (req_headers r) "Content-Length") = inl e
  \/ (exists n, int (headers_getitem (req_headers r) "Content-Length") = inr n
                /\ rfile_read r n = inl e) ->
  handle Server2 w POST r = crash e.
Proof.
  intros Hpath [Hlen | (n & Hlen & Hread)]; unfold_handlers;
    step_with Hpath; step_with Hlen; [| step_with Hread]; reflexivity.
Qed.

(** X4: a POST never leaves half a response: on either server it ends
    either with an exception and nothing sent, or with a complete response,
    whose status is 200 or 404 on server 1 and 200, 401, 400 or 404 on
    server 2. *)
Theorem post_complete_or_nothing (r : request) :
  complete_or_nothing w [200; 404]%Z (handle Server1 w POST r)
  /\ complete_or_nothing w [200; 401; 400; 404]%Z (handle Server2 w POST r).
Proof.
  split.
  - unfold complete_or_nothing.
    destruct (urlparse_path (path r)) as [e | p] eqn:Hpath.
    + left. exists e. unfold_handlers. rewrite Hpath. reflexivity.
    + right.
      destruct (str_in p ["/api/stock-alerts/monitoring/start";
                          "/api/stock-alerts/monitoring/stop"]) eqn:Hin;
        do 3 eexists;
        (split; [unfold_handlers; rewrite Hpath; cbn -[str_in]; rewrite Hin;
                 reflexivity | cbn; auto]).
  - unfold complete_or_nothing.
    destruct (urlparse_path (path r)) as [e | p] eqn:Hpath.
    { left. exists e. unfold_handlers. rewrite Hpath. reflexivity. }
    destruct (String.eqb_spec p "/api/auth/staff-login") as [-> | Hother].
    2: { right. apply String.eqb_neq in Hother. do 3 eexists.
         split; [unfold_handlers; rewrite Hpath; cbn; rewrite Hother;
                 reflexivity | cbn; auto]. }
    destruct (int (headers_getitem (req_headers r) "Content-Length"))
      as [e | n] eqn:Hlen.
    { left. exists e. unfold_handlers. step_with Hpath. step_with Hlen.
      reflexivity. }
    destruct (rfile_read r n) as [e | post_data] eqn:Hread.
    { left. exists e. unfold_handlers. step_with Hpath. step_with Hlen.
      step_with Hread. reflexivity. }
    destruct (utf8_code_points post_data) as [cps |] eqn:Hcps.
    2: { left. exists UnicodeDecodeError.
         apply (staff_login_not_utf8 w r n post_data); assumption. }
    assert (Htext : decode_utf8 post_data = inr (string_of_list_byte post_data))
      by (unfold decode_utf8; rewrite Hcps; reflexivity).
    destruct (json_loads (string_of_list_byte post_data)) as [e | v] eqn:Hjson.
    { unfold_handlers. step_with Hpath. step_with Hlen. step_with Hread.
      unfold try_except. cbn. step_with Htext. step_with Hjson.
      destruct e; cbn;
        solve [ left; eexists; reflexivity
              | right; do 3 eexists; split; [reflexivity | cbn; auto] ]. }
    destruct (keys v) as [ks |] eqn:Hkeys.
    2: { left. exists AttributeError.
         apply (staff_login_not_a_dict w r n post_data (string_of_list_byte post_data) v); assumption. }
    destruct v as [| | | | | | d]; try discriminate Hkeys.
    destruct (print [field d "email"; field d "role"]) as [e | []] eqn:Hprint.
    { left. exists UnicodeEncodeError.
      exact (staff_login_unprintable w r n post_data _ d e
               Hpath Hlen Hread Htext Hjson Hprint). }
    right.
    rewrite (staff_login_checks_credentials w r n post_data
               (string_of_list_byte post_data) d
               Hpath Hlen Hread Htext Hjson Hprint).
    destruct (credentials_match d); do 3 eexists;
      (split; [reflexivity | cbn; auto]).
Qed.

(** X5: the 200 reply of a POST on server 2, the one that carries the
    token, is sent only for a login whose body is a JSON object with the
    owner's email, password and role. *)
Theorem token_only_for_owner (r : request) :
  status (fst (handle Server2 w POST r)) = Some 200%Z ->
  exists n post_data text d,
    urlparse_path (path r) = inr "/api/auth/staff-login"
    /\ int (headers_getitem (req_headers r) "Content-Length") = inr n
    /\ rfile_read r n = inr post_data
    /\ decode_utf8 post_data = inr text
    /\ json_loads text = inr (JDict d)
    /\ owner_credentials d.
Proof.
  intros H200.
  destruct (urlparse_path (path r)) as [e | p] eqn:Hpath.
  { exfalso. revert H200. unfold_handlers. rewrite Hpath. discriminate. }
  destruct (String.eqb_spec p "/api/auth/staff-login") as [-> | Hother].
  2: { exfalso. revert H200. apply String.eqb_neq in Hother.
       unfold_handlers. rewrite Hpath. cbn. rewrite Hother. discriminate. }
  destruct (int (headers_getitem (req_headers r) "Content-Length"))
    as [e | n] eqn:Hlen.
  { exfalso. revert H200. unfold_handlers. step_with Hpath. step_with Hlen.
    discriminate. }
  destruct (rfile_read r n) as [e | post_data] eqn:Hread.
  { exfalso. revert H200. unfold_handlers. step_with Hpath. step_with Hlen.
    step_with Hread. discriminate. }
  destruct (utf8_code_points post_data) as [cps |] eqn:Hcps.
  2: { exfalso. revert H200.
       rewrite (staff_login_not_utf8 w r n post_data Hpath Hlen Hread Hcps).
       discriminate. }
  assert (Htext : decode_utf8 post_data = inr (string_of_list_byte post_data))
    by (unfold decode_utf8; rewrite Hcps; reflexivity).
  destruct (json_loads (string_of_list_byte post_data)) as [e | v] eqn:Hjson.
  { exfalso. revert H200. unfold_handlers. step_with Hpath. step_with Hlen.
    step_with Hread. unfold try_except. cbn. step_with Htext.
    step_with Hjson. destruct e; discriminate. }
  destruct (keys v) as [ks |] eqn:Hkeys.
  2: { exfalso. revert H200.
       rewrite (staff_login_not_a_dict w r n post_data (string_of_list_byte post_data) v
                  Hpath Hlen Hread Htext Hjson Hkeys).
       discriminate. }
  destruct v as [| | | | | | d]; try discriminate Hkeys.
  destruct (print [field d "email"; field d "role"]) as [e | []] eqn:Hprint.
  { exfalso. revert H200.
    rewrite (staff_login_unprintable w r n post_data _ d e
               Hpath Hlen Hread Htext Hjson Hprint).
    discriminate. }
  rewrite (staff_login_checks_credentials w r n post_data
             (string_of_list_byte post_data) d
             Hpath Hlen Hread Htext Hjson Hprint) in H200.
  destruct (credentials_match d) eqn:Hmatch; [| discriminate H200].
  exists n, post_data, (string_of_list_byte post_data), d.
  repeat split; try assumption; apply credentials_match_iff in Hmatch;
    apply Hmatch.
Qed.

End Further.

(** ** Runs of the further properties *)

Lemma server1_get_static_fallback_witness :
  let r := Reference.get_request "/api/products/1?v=2" in
  Reference.urlparse_path (path r) = inr "/api/products/1"
  /\ str_in "/api/products/1" server1_get_routes = false
  /\ handle (L := Reference.lib) Server1 Reference.site GET r
     = run (Reference.SimpleHTTPRequestHandler_do_GET Reference.site r).
Proof.
  intros r.
  assert (Hpath : @urlparse_path Reference.lib (path r) = inr "/api/products/1")
    by reflexivity.
  assert (Hnone : str_in "/api/products/1" server1_get_routes = false)
    by reflexivity.
  exact (conj Hpath (conj Hnone
           (server1_get_static_fallback (L := Reference.lib) Reference.site
              _ r Hpath Hnone))).
Defined.

Lemma server2_get_static_fallback_witness :
  let r := Reference.get_request "/staff-login.html" in
  Reference.urlparse_path (path r) = inr "/staff-login.html"
  /\ str_in "/staff-login.html" server2_get_routes = false
  /\ handle (L := Reference.lib) Server2 Reference.site GET r
     = run (Reference.SimpleHTTPRequestHandler_do_GET Reference.site r).
Proof.
  intros r.
  assert (Hpath : @urlparse_path Reference.lib (path r)
                  = inr "/staff-login.html") by reflexivity.
  assert (Hnone : str_in "/staff-login.html" server2_get_routes = false)
    by reflexivity.
  exact (conj Hpath (conj Hnone
           (server2_get_static_fallback (L := Reference.lib) Reference.site
              _ r Hpath Hnone))).
Defined.

Lemma urlparse_failure_sends_nothing_witness :
  let r := Reference.get_request "//[::1/api/health" in
  GET <> OPTIONS
  /\ Reference.urlparse_path_strict (path r) = inl ValueError
  /\ handle (L := Reference.lib_strict 3) Server1 Reference.site GET r
     = crash ValueError.
Proof.
  intros r.
  assert (Hm : GET <> OPTIONS) by discriminate.
  assert (Hpath : @urlparse_path (Reference.lib_strict 3) (path r)
                  = inl ValueError) by reflexivity.
  exact (conj Hm (conj Hpath
           (urlparse_failure_sends_nothing (L := Reference.lib_strict 3)
              Reference.site Server1 GET ValueError r Hm Hpath))).
Defined.

Lemma server1_post_reads_only_path_witness :
  let r := Reference.post_request "/api/stock-alerts/monitoring/start" [] in
  let r' := mkRequest "/api/stock-alerts/monitoring/start?force=1"
              [("Content-Type", "text/plain")] (encode "now") in
  Reference.urlparse_path (path r) = Reference.urlparse_path (path r')
  /\ handle (L := Reference.lib) Server1 Reference.site POST r
     = handle (L := Reference.lib) Server1 Reference.site POST r'.
Proof.
  intros r r'.
  assert (Hsame : @urlparse_path Reference.lib (path r)
                  = @urlparse_path Reference.lib (path r'))
    by (vm_compute; reflexivity).
  exact (conj Hsame
           (server1_post_reads_only_path (L := Reference.lib) Reference.site
              r r' Hsame)).
Defined.

Lemma server1_list_routes_witness :
  let r := Reference.get_request "/api/auth/users" in
  In ("/api/auth/users", (2, ["_id"; "name"; "email"; "phone"])) list_routes
  /\ Reference.urlparse_path (path r) = inr "/api/auth/users"
  /\ exists items,
       handle (L := Reference.lib) Server1 Reference.site GET r
         = reply Reference.site 200 cors_json (encode (json_dumps (JList items)))
       /\ body_json (handle (L := Reference.lib) Server1 Reference.site GET r)
          = inr (JList items)
       /\ length items = 2
       /\ Forall (fun o => keys o = Some ["_id"; "name"; "email"; "phone"]) items.
Proof.
  intros r.
  assert (Hin : In ("/api/auth/users", (2, ["_id"; "name"; "email"; "phone"]))
                  list_routes) by (do 2 right; left; reflexivity).
  assert (Hpath : @urlparse_path Reference.lib (path r) = inr "/api/auth/users")
    by reflexivity.
  exact (conj Hin (conj Hpath
           (server1_list_routes (L := Reference.lib) Reference.site
              _ _ _ r Hin Hpath))).
Defined.

Lemma server1_health_timestamp_witness :
  let r := Reference.get_request "/api/health" in
  Reference.urlparse_path (path r) = inr "/api/health"
  /\ plain (now_isoformat Reference.site) = true
  /\ handle (L := Reference.lib) Server1 Reference.site GET r
     = reply Reference.site 200 cors_json
         (encode (health_text "2025-01-01T12:00:00.000000")).
Proof.
  intros r.
  assert (Hpath : @urlparse_path Reference.lib (path r) = inr "/api/health")
    by reflexivity.
  assert (Hplain : plain (now_isoformat Reference.site) = true) by reflexivity.
  exact (conj Hpath (conj Hplain
           (server1_health_timestamp (L := Reference.lib) Reference.site r
              Hpath Hplain))).
Defined.

Lemma statistics_unaffected_by_toggles_witness :
  let prior :=
    [(Reference.site, POST,
      Reference.post_request "/api/stock-alerts/monitoring/stop" []);
     (Reference.site, POST,
      Reference.post_request "/api/stock-alerts/monitoring/stop" [])] in
  let r := Reference.get_request "/api/stock-alerts/statistics" in
  Reference.urlparse_path (path r) = inr "/api/stock-alerts/statistics"
  /\ nth_error
       (serve_forever (L := Reference.lib) Server1
          (prior ++ [(Reference.site, GET, r)])%list) 2
     = Some (reply Reference.site 200 cors_json (encode statistics_text)).
Proof.
  intros prior r.
  assert (Hpath : @urlparse_path Reference.lib (path r)
                  = inr "/api/stock-alerts/statistics") by reflexivity.
  exact (conj Hpath
           (statistics_unaffected_by_toggles (L := Reference.lib)
              Reference.site prior r Hpath)).
Defined.

Lemma server2_health_no_cors_witness :
  let r := Reference.get_request "/api/health" in
  Reference.urlparse_path (path r) = inr "/api/health"
  /\ handle (L := Reference.lib) Server2 Reference.site GET r
     = reply Reference.site 200 [("Content-type", "application/json")]
         (encode staff_health_text).
Proof.
  intros r.
  assert (Hpath : @urlparse_path Reference.lib (path r) = inr "/api/health")
    by reflexivity.
  exact (conj Hpath
           (proj1 (server2_health_no_cors (L := Reference.lib) Reference.site
                     r Hpath))).
Defined.


Lemma staff_login_other_parse_error_uncaught_witness :
  let post_data := encode "[[[[" in
  let r := Reference.post_request "/api/auth/staff-login" post_data in
  Reference.urlparse_path_strict (path r) = inr "/api/auth/staff-login"
  /\ int (L := Reference.lib_strict 3)
       (headers_getitem (req_headers r) "Content-Length") = inr 4%Z
  /\ Reference.rfile_read r 4 = inr post_data
  /\ decode_utf8 post_data = inr "[[[["
  /\ Reference.json_loads_bounded 3 "[[[[" = inl RecursionError
  /\ issubclass RecursionError JSONDecodeError = false
  /\ handle (L := Reference.lib_strict 3) Server2 Reference.site POST r
     = crash RecursionError.
Proof.
  intros post_data r.
  assert (Hpath : @urlparse_path (Reference.lib_strict 3) (path r)
                  = inr "/api/auth/staff-login") by reflexivity.
  assert (Hlen : int (L := Reference.lib_strict 3)
                   (headers_getitem (req_headers r) "Content-Length")
                 = inr 4%Z) by reflexivity.
  assert (Hread : @rfile_read (Reference.lib_strict 3) r 4 = inr post_data)
    by reflexivity.
  assert (Htext : decode_utf8 post_data = inr "[[[[") by reflexivity.
  assert (Hjson : @json_loads (Reference.lib_strict 3) "[[[["
                  = inl RecursionError) by reflexivity.
  assert (Hclass : issubclass RecursionError JSONDecodeError = false)
    by reflexivity.
  exact (conj Hpath (conj Hlen (conj Hread (conj Htext (conj Hjson
           (conj Hclass
              (staff_login_other_parse_error_uncaught
                 (L := Reference.lib_strict 3) Reference.site
                 r 4 post_data _ _ Hpath Hlen Hread Htext Hjson Hclass))))))).
Defined.

Lemma staff_login_bad_length_uncaught_witness :
  let r := mkRequest "/api/auth/staff-login" [("Content-Length", "twelve")]
             (encode "{}") in
  Reference.urlparse_path (path r) = inr "/api/auth/staff-login"
  /\ int (L := Reference.lib) (headers_getitem (req_headers r) "Content-Length")
     = inl ValueError
  /\ handle (L := Reference.lib) Server2 Reference.site POST r
     = crash ValueError.
Proof.
  intros r.
  assert (Hpath : @urlparse_path Reference.lib (path r)
                  = inr "/api/auth/staff-login") by reflexivity.
  assert (Hlen : int (L := Reference.lib)
                   (headers_getitem (req_headers r) "Content-Length")
                 = inl ValueError) by reflexivity.
  exact (conj Hpath (conj Hlen
           (staff_login_bad_length_uncaught (L := Reference.lib) Reference.site
              r ValueError Hpath (or_introl Hlen)))).
Defined.

Lemma token_only_for_owner_witness :
  let r := Reference.post_request "/api/auth/staff-login"
             (login_body "admin@abaisprings.com" "password123" "owner") in
  status (fst (handle (L := Reference.lib) Server2 Reference.site POST r))
    = Some 200%Z
  /\ exists n post_data text d,
       Reference.urlparse_path (path r) = inr "/api/auth/staff-login"
       /\ int (L := Reference.lib)
            (headers_getitem (req_headers r) "Content-Length") = inr n
       /\ Reference.rfile_read r n = inr post_data
       /\ decode_utf8 post_data = inr text
       /\ Reference.json_loads text = inr (JDict d)
       /\ owner_credentials d.
Proof.
  intros r.
  assert (H200 : status (fst (handle (L := Reference.lib) Server2
                                Reference.site POST r)) = Some 200%Z)
    by (vm_compute; reflexivity).
  exact (conj H200
           (token_only_for_owner (L := Reference.lib) Reference.site r H200)).
Defined.

Lemma staff_login_invalid_json_400_witness :
  let r := Reference.post_request "/api/auth/staff-login" [] in
  Reference.urlparse_path (path r) = inr "/api/auth/staff-login"
  /\ int (L := Reference.lib) (headers_getitem (req_headers r) "Content-Length")
     = inr 0%Z
  /\ Reference.rfile_read r 0 = inr []
  /\ decode_utf8 [] = inr ""
  /\ Reference.json_loads "" = inl JSONDecodeError
  /\ handle (L := Reference.lib) Server2 Reference.site POST r
     = reply Reference.site 400 [("Content-type", "application/json")]
         (encode invalid_json_text).
Proof.
  intros r.
  assert (Hpath : @urlparse_path Reference.lib (path r)
                  = inr "/api/auth/staff-login") by reflexivity.
  assert (Hlen : int (L := Reference.lib)
                   (headers_getitem (req_headers r) "Content-Length")
                 = inr 0%Z) by reflexivity.
  assert (Hread : @rfile_read Reference.lib r 0 = inr []) by reflexivity.
  assert (Htext : decode_utf8 [] = inr "") by reflexivity.
  assert (Hjson : @json_loads Reference.lib "" = inl JSONDecodeError)
    by reflexivity.
  exact (conj Hpath (conj Hlen (conj Hread (conj Htext (conj Hjson
           (staff_login_invalid_json_400 (L := Reference.lib) Reference.site
              r 0 [] "" Hpath Hlen Hread Htext Hjson)))))).
Defined.
